(** * Task controller: query and mutation contract

    A shallow embedding of [controllers/taskController.js] (the handlers
    [getTasks], [getTask], [createTask], [updateTask], [deleteTask],
    [toggleTaskStatus] and [getTaskStats]) over a list model of the
    [Task] collection, and of the route table of [routes/taskRoutes.js]
    that dispatches requests to them.

    Conventions.
    - A JavaScript number is [NaN], an infinity or an integer that a
      double holds ([Num]); an integer result is rounded to the nearest
      double, ties to even, and overflows to an infinity
      ([round_double]).  Zero has no sign.  The number of documents in a
      collection is below 2^53.
    - A text is a sequence of characters with codes below 256, one
      [ascii] each.
    - A query parameter is absent or a text; the nested forms the query
      parser can build (arrays, objects) are not modelled.
    - An ObjectId is identified with its 24 digit hexadecimal rendering,
      so [toString] is the identity and comparing two renderings is
      comparing the ids.  The cast of the route parameter [:id] to an
      ObjectId happens inside the driver and is not modelled: handlers
      receive a well formed id.
    - [Date.now()] and the id the driver generates for a new document are
      inputs of the handler that uses them.
    - A handler either sends a JSON body with a status code, or throws
      with the status code that was set on [res] at that moment (200 when
      none was set); turning a throw into a response is the work of the
      error middleware, which is not part of this development. *)

From Stdlib Require Import ZArith List String Ascii Bool Lia Permutation
  Sorted.
Import ListNotations.
Open Scope string_scope.
Open Scope list_scope.
Open Scope Z_scope.

(** ** JavaScript values *)

Module Js.

(** The values a JSON request body or a stored field can hold.
    [JUndefined] is what reading an absent key gives; [JObject] is an
    object or an array, whose content is not modelled. *)
Inductive JsVal : Type :=
| JUndefined
| JNull
| JBool (b : bool)
| JNum (n : Z)
| JStr (s : string)
| JObject.

(** A number: not a number, an infinity, or the integer [z]. *)
Inductive Num : Type :=
| NaN
| PosInf
| NegInf
| Fin (z : Z).

Definition is_finite (n : Num) : bool :=
  match n with Fin _ => true | _ => false end.

(** [ToBoolean]. *)
Definition truthy (v : JsVal) : bool :=
  match v with
  | JUndefined | JNull => false
  | JBool b => b
  | JNum n => negb (n =? 0)
  | JStr s => negb (s =? "")%string
  | JObject => true
  end.

(** [a || b] on values. *)
Definition js_or (a b : JsVal) : JsVal := if truthy a then a else b.

(** [a !== undefined]. *)
Definition is_defined (v : JsVal) : bool :=
  match v with JUndefined => false | _ => true end.

Definition JsVal_eqb (a b : JsVal) : bool :=
  match a, b with
  | JUndefined, JUndefined => true
  | JNull, JNull => true
  | JBool x, JBool y => Bool.eqb x y
  | JNum x, JNum y => x =? y
  | JStr x, JStr y => (x =? y)%string
  | JObject, JObject => true
  | _, _ => false
  end.

(** [v === 'lit']: strict equality with a string literal. *)
Definition strict_eq_str (v : JsVal) (lit : string) : bool :=
  JsVal_eqb v (JStr lit).

(** A query-string parameter: [None] when the key is absent
    ([undefined]), otherwise its text. *)
Definition truthy_param (p : option string) : bool :=
  match p with
  | None => false
  | Some s => negb (s =? "")%string
  end.

(** *** [parseInt] with no radix argument *)

(** White space and line terminators: tab to carriage return, space
    and no-break space. *)
Definition is_white (c : ascii) : bool :=
  let n := nat_of_ascii c in
  orb (orb (Nat.eqb n 32) (Nat.eqb n 160)) (andb (Nat.leb 9 n) (Nat.leb n 13)).

Fixpoint skip_white (s : string) : string :=
  match s with
  | String c r => if is_white c then skip_white r else s
  | EmptyString => s
  end.

(** Value of a character as a digit in the given radix (10 or 16). *)
Definition digit_of (radix : Z) (c : ascii) : option Z :=
  let n := Z.of_nat (nat_of_ascii c) in
  let d :=
    if andb (48 <=? n) (n <=? 57) then Some (n - 48)
    else if andb (97 <=? n) (n <=? 102) then Some (n - 87)
    else if andb (65 <=? n) (n <=? 70) then Some (n - 55)
    else None in
  match d with
  | Some v => if v <? radix then Some v else None
  | None => None
  end.

(** Longest prefix of digits; [acc] is [None] until a digit was read. *)
Fixpoint read_digits (radix : Z) (s : string) (acc : option Z) : option Z :=
  match s with
  | EmptyString => acc
  | String c r =>
      match digit_of radix c with
      | Some d =>
          read_digits radix r
            (Some (match acc with Some a => a * radix + d | None => d end))
      | None => acc
      end
  end.

Definition strip_sign (s : string) : Z * string :=
  match s with
  | String "-"%char r => (-1, r)
  | String "+"%char r => (1, r)
  | _ => (1, s)
  end.

Definition strip_hex_prefix (s : string) : Z * string :=
  match s with
  | String "0"%char (String "x"%char r) => (16, r)
  | String "0"%char (String "X"%char r) => (16, r)
  | _ => (10, s)
  end.

(** Every integer up to 2^53 in size is a double. *)
Definition two53 : Z := 2 ^ 53.

Definition safe_integer (z : Z) : bool := Z.abs z <=? two53.

(** The double nearest to an integer: beyond 2^53 the 53 leading bits
    are kept and the rest is rounded off, a tie going to the even
    neighbour; from 2^1024 on the result is an infinity. *)
Definition round_double (v : Z) : Num :=
  let a := Z.abs v in
  if a <=? two53 then Fin v
  else
    let k := Z.log2 a - 52 in
    let m := Z.shiftr a k in
    let r := a - Z.shiftl m k in
    let half := Z.shiftl 1 (k - 1) in
    let m' := if (half <? r) || ((r =? half) && Z.odd m) then m + 1 else m in
    let res := Z.shiftl m' k in
    if 2 ^ 1024 <=? res then (if 0 <? v then PosInf else NegInf)
    else Fin (Z.sgn v * res).

(** The number of the digits read is the mathematical value rounded to
    the nearest double, as V8 computes it; no digit gives [NaN]. *)
Definition parseInt_string (s : string) : Num :=
  let '(sign, s1) := strip_sign (skip_white s) in
  let '(radix, s2) := strip_hex_prefix s1 in
  match read_digits radix s2 None with
  | Some v => round_double (sign * v)
  | None => NaN
  end.

(** [parseInt(req.query.x)]: an absent parameter is the text
    ["undefined"], which has no digits. *)
Definition parseInt (p : option string) : Num :=
  match p with
  | None => parseInt_string "undefined"
  | Some s => parseInt_string s
  end.

(** [n || d] for the result of [parseInt] and a literal [d]: [NaN]
    and zero are falsy, an infinity is not. *)
Definition num_or (n : Num) (d : Z) : Num :=
  match n with
  | NaN => Fin d
  | Fin z => if z =? 0 then Fin d else n
  | _ => n
  end.

(** [a - b] for a literal [b]. *)
Definition num_sub (a : Num) (b : Z) : Num :=
  match a with
  | Fin x => round_double (x - b)
  | _ => a
  end.

Definition negative (n : Num) : bool :=
  match n with
  | NegInf => true
  | Fin z => z <? 0
  | _ => false
  end.

(** [a * b]: zero times an infinity is [NaN]. *)
Definition num_mul (a b : Num) : Num :=
  match a, b with
  | NaN, _ | _, NaN => NaN
  | Fin x, Fin y => round_double (x * y)
  | Fin x, _ =>
      if x =? 0 then NaN
      else if xorb (x <? 0) (negative b) then NegInf else PosInf
  | _, Fin y =>
      if y =? 0 then NaN
      else if xorb (negative a) (y <? 0) then NegInf else PosInf
  | _, _ => if xorb (negative a) (negative b) then NegInf else PosInf
  end.

(** [Math.ceil(a / b)] for a count [a] (an integer from 0 to below 2^53,
    on which the rounded quotient has the ceiling of the exact one) and
    a number [b]: a count over an infinity is zero. *)
Definition ceil_div (a : Z) (b : Num) : Num :=
  match b with
  | NaN => NaN
  | PosInf | NegInf => Fin 0
  | Fin d =>
      if d =? 0 then
        (if a =? 0 then NaN else if 0 <? a then PosInf else NegInf)
      else Fin (- ((- a) / d))
  end.

End Js.
Import Js.


(** ** The Task collection *)

Definition ObjectId := string.

(** [id.toString()]. *)
Definition oid_toString (o : ObjectId) : string := o.

Record Task : Type := mkTask {
  _id : ObjectId;
  user : ObjectId;
  title : JsVal;
  description : JsVal;
  status : JsVal;
  priority : JsVal;
  dueDate : JsVal;
  createdAt : Z;
  updatedAt : Z
}.

(** A collection is the list of its documents in natural order. *)
Definition Collection := list Task.

(** A JavaScript object used as a map from keys to values: a request
    body, and the update document handed to [findByIdAndUpdate]. *)
Definition JsObject := list (string * JsVal).

Fixpoint get (k : string) (o : JsObject) : JsVal :=
  match o with
  | [] => JUndefined
  | (k', v) :: r => if (k =? k')%string then v else get k r
  end.

Definition keys (o : JsObject) : list string := map fst o.

(** The filter object [getTasks] builds.  [f_or] holds the search text
    of the [$or] of two case-insensitive [$regex] conditions, on [title]
    and on [description]. *)
Record Filter : Type := mkFilter {
  f_user : ObjectId;
  f_or : option string;
  f_status : option string;
  f_priority : option string
}.

(** The sort object: one field and its direction (1 or -1). *)
Record SortSpec : Type := mkSort {
  sortField : string;
  sortOrder : Z
}.

(** What the store decides and the controller does not see: which
    [$regex] patterns compile (and what they match), which strings are
    usable as a sort key, which documents pass the validators of the
    Task schema, and what becomes of a skip or a limit that is not an
    integer up to 2^53 in size ([NaN], an infinity, a larger double):
    the query is refused, or some number of documents is skipped and at
    most some number, if any, is returned.  The schema lives in
    [models/Task.js]. *)
Record StoreModel : Type := mkStoreModel {
  compile_regex : string -> option (string -> bool);
  sort_key_ok : string -> bool;
  validate : Task -> bool;
  unusual_window : Num -> Num -> option (nat * option nat)
}.

(** What a handler does with [res]. *)
Inductive Outcome (A : Type) : Type :=
| Sent (code : Z) (body : A)
| Thrown (code : Z) (msg : string).
Arguments Sent {A} code body.
Arguments Thrown {A} code msg.

(** Message of an error raised by the store itself. *)
Definition store_error : string := "MongoServerError".
Definition validation_error : string := "ValidationError".

(** ** The store interface the controller calls *)

Section Store.

Variable M : StoreModel.

Definition oid_eqb (a b : ObjectId) : bool :=
  (oid_toString a =? oid_toString b)%string.

(** An equality condition that is in the filter only when set. *)
Definition cond_matches (c : option string) (v : JsVal) : bool :=
  match c with
  | None => true
  | Some s => JsVal_eqb v (JStr s)
  end.

(** A [$regex] condition matches string fields only. *)
Definition regex_on (r : string -> bool) (v : JsVal) : bool :=
  match v with JStr s => r s | _ => false end.

(** The conditions other than [$or]; the keys of a filter are joined by
    an implicit AND. *)
Definition base_match (f : Filter) (t : Task) : bool :=
  oid_eqb (user t) (f_user f)
  && cond_matches (f_status f) (status t)
  && cond_matches (f_priority f) (priority t).

(** The predicate of a filter; [None] when the store rejects it because
    the search pattern does not compile. *)
Definition matcher (f : Filter) : option (Task -> bool) :=
  match f_or f with
  | None => Some (base_match f)
  | Some pat =>
      match compile_regex M pat with
      | None => None
      | Some r =>
          Some (fun t => base_match f t
                         && (regex_on r (title t) || regex_on r (description t)))
      end
  end.

(** *** Sorting *)

(** Reading a field by name; a field the schema does not have is
    missing in every document. *)
Definition field_of (name : string) (t : Task) : JsVal :=
  if (name =? "title")%string then title t
  else if (name =? "description")%string then description t
  else if (name =? "status")%string then status t
  else if (name =? "priority")%string then priority t
  else if (name =? "dueDate")%string then dueDate t
  else if (name =? "createdAt")%string then JNum (createdAt t)
  else if (name =? "updatedAt")%string then JNum (updatedAt t)
  else if (name =? "user")%string then JStr (user t)
  else if (name =? "_id")%string then JStr (_id t)
  else JUndefined.

(** Comparison order of value types: missing and null, then numbers,
    then strings, then objects, then booleans. *)
Definition type_rank (v : JsVal) : Z :=
  match v with
  | JUndefined | JNull => 0
  | JNum _ => 1
  | JStr _ => 2
  | JObject => 3
  | JBool _ => 4
  end.

Definition value_compare (a b : JsVal) : comparison :=
  match a, b with
  | JNum x, JNum y => x ?= y
  | JStr x, JStr y => String.compare x y
  | JBool x, JBool y => Bool.compare x y
  | _, _ => type_rank a ?= type_rank b
  end.

Definition task_compare (s : SortSpec) (a b : Task) : comparison :=
  let c := value_compare (field_of (sortField s) a) (field_of (sortField s) b) in
  if sortOrder s =? 1 then c else CompOpp c.

Fixpoint insert_sorted (s : SortSpec) (x : Task) (l : list Task) : list Task :=
  match l with
  | [] => [x]
  | y :: r =>
      match task_compare s x y with
      | Gt => y :: insert_sorted s x r
      | _ => x :: l
      end
  end.

(** [.sort(s)]: documents that compare equal keep their natural order. *)
Definition sort_tasks (s : SortSpec) (l : list Task) : list Task :=
  fold_right (insert_sorted s) [] l.

(** *** Queries *)

(** [.limit(n)]: zero means no limit; for a negative [n] the driver
    asks for [-n] documents in a single batch. *)
Definition take_limit (n : Z) (l : list Task) : list Task :=
  if n =? 0 then l else firstn (Z.to_nat (Z.abs n)) l.

(** [Task.countDocuments(filter)]. *)
Definition Task_countDocuments (docs : Collection) (f : Filter) : option Z :=
  match matcher f with
  | None => None
  | Some p => Some (Z.of_nat (List.length (filter p docs)))
  end.

(** The documents a skip and a limit leave of a sorted result; [None]
    when the store refuses them.  For integers up to 2^53 in size a
    negative skip is refused (the server requires a non-negative skip
    value) and the limit is taken as [take_limit] says. *)
Definition window (skip limit : Num) (l : list Task) : option (list Task) :=
  match skip, limit with
  | Fin sk, Fin lim =>
      if safe_integer sk && safe_integer lim then
        if 0 <=? sk then Some (take_limit lim (skipn (Z.to_nat sk) l))
        else None
      else
        option_map
          (fun w => match snd w with
                    | Some k => firstn k (skipn (fst w) l)
                    | None => skipn (fst w) l
                    end)
          (unusual_window M skip limit)
  | _, _ =>
      option_map
        (fun w => match snd w with
                  | Some k => firstn k (skipn (fst w) l)
                  | None => skipn (fst w) l
                  end)
        (unusual_window M skip limit)
  end.

(** [Task.find(filter).sort(s).skip(skip).limit(limit)].  The store
    rejects a pattern that does not compile, a sort key it cannot use
    and a skip or limit it refuses; the query then throws. *)
Definition Task_find (docs : Collection) (f : Filter) (s : SortSpec)
    (skip limit : Num) : option (list Task) :=
  match matcher f with
  | None => None
  | Some p =>
      if sort_key_ok M (sortField s)
      then window skip limit (sort_tasks s (filter p docs))
      else None
  end.

(** [Task.findById(id)]; [None] is [null]. *)
Definition Task_findById (docs : Collection) (id : ObjectId) : option Task :=
  find (fun t => oid_eqb (_id t) id) docs.

Fixpoint replace_by_id (id : ObjectId) (t' : Task) (docs : Collection)
    : Collection :=
  match docs with
  | [] => []
  | t :: r =>
      if oid_eqb (_id t) id then t' :: r else t :: replace_by_id id t' r
  end.

Fixpoint remove_by_id (id : ObjectId) (docs : Collection) : Collection :=
  match docs with
  | [] => []
  | t :: r => if oid_eqb (_id t) id then r else t :: remove_by_id id r
  end.

(** Writing one key of an update document.  Keys the schema does not
    have are dropped; [_id] cannot be written. *)
Definition set_field (k : string) (v : JsVal) (t : Task) : Task :=
  if (k =? "title")%string then
    mkTask (_id t) (user t) v (description t) (status t) (priority t)
           (dueDate t) (createdAt t) (updatedAt t)
  else if (k =? "description")%string then
    mkTask (_id t) (user t) (title t) v (status t) (priority t)
           (dueDate t) (createdAt t) (updatedAt t)
  else if (k =? "status")%string then
    mkTask (_id t) (user t) (title t) (description t) v (priority t)
           (dueDate t) (createdAt t) (updatedAt t)
  else if (k =? "priority")%string then
    mkTask (_id t) (user t) (title t) (description t) (status t) v
           (dueDate t) (createdAt t) (updatedAt t)
  else if (k =? "dueDate")%string then
    mkTask (_id t) (user t) (title t) (description t) (status t) (priority t)
           v (createdAt t) (updatedAt t)
  else if (k =? "user")%string then
    match v with
    | JStr u =>
        mkTask (_id t) u (title t) (description t) (status t) (priority t)
               (dueDate t) (createdAt t) (updatedAt t)
    | _ => t
    end
  else if (k =? "createdAt")%string then
    match v with
    | JNum n =>
        mkTask (_id t) (user t) (title t) (description t) (status t)
               (priority t) (dueDate t) n (updatedAt t)
    | _ => t
    end
  else if (k =? "updatedAt")%string then
    match v with
    | JNum n =>
        mkTask (_id t) (user t) (title t) (description t) (status t)
               (priority t) (dueDate t) (createdAt t) n
    | _ => t
    end
  else t.

(** Every key of the update document is written, in order. *)
Definition apply_update (u : JsObject) (t : Task) : Task :=
  fold_left (fun acc kv => set_field (fst kv) (snd kv) acc) u t.

(** [Task.findByIdAndUpdate(id, u, { new: true, runValidators: true })].
    [None]: the validators rejected the update and the call throws.
    Otherwise the new collection and the updated document ([null] when
    no document has this id). *)
Definition Task_findByIdAndUpdate (docs : Collection) (id : ObjectId)
    (u : JsObject) : option (Collection * option Task) :=
  match Task_findById docs id with
  | None => Some (docs, None)
  | Some t =>
      let t' := apply_update u t in
      if validate M t' then Some (replace_by_id id t' docs, Some t') else None
  end.

(** [Task.findByIdAndDelete(id)]. *)
Definition Task_findByIdAndDelete (docs : Collection) (id : ObjectId)
    : Collection :=
  remove_by_id id docs.

(** [task.save()] for a loaded document: it is written back under its
    id.  The handler that saves changes [status] to one of the two
    values of the enum and [updatedAt] to a number. *)
Definition Task_save (docs : Collection) (t : Task) : Collection :=
  replace_by_id (_id t) t docs.

(** Modelled from the spec: the defaults of the Task schema, which is
    declared in [models/Task.js].  A new task has [status] pending and
    both timestamps set to the time of creation; the other fields are
    the ones handed to [Task.create]. *)
Definition new_document (id owner : ObjectId) (now : Z)
    (ttl descr prio due : JsVal) : Task :=
  mkTask id owner ttl descr (JStr "pending") prio due now now.

(** [Task.create(doc)]: validated, then appended. [None]: the
    validators rejected the document and the call throws. *)
Definition Task_create (docs : Collection) (t : Task)
    : option (Collection * Task) :=
  if validate M t then Some (docs ++ [t], t) else None.

(** *** Grouped count *)

(** The key [$group] files a document under: a missing value counts as
    null. *)
Definition group_key (v : JsVal) : JsVal :=
  match v with JUndefined => JNull | _ => v end.

Fixpoint bump (k : JsVal) (g : list (JsVal * Z)) : list (JsVal * Z) :=
  match g with
  | [] => [(k, 1)]
  | (k', c) :: r =>
      if JsVal_eqb k k' then (k', c + 1) :: r else (k', c) :: bump k r
  end.

(** [Task.aggregate([{ $match: { user } },
                     { $group: { _id: '$status', count: { $sum: 1 } } }])]. *)
Definition Task_aggregate_by_status (docs : Collection) (owner : ObjectId)
    : list (JsVal * Z) :=
  fold_left (fun g t => bump (group_key (status t)) g)
            (filter (fun t => oid_eqb (user t) owner) docs) [].

End Store.

(** ** The handlers *)

(** [req.query] of the list route. *)
Record Query : Type := mkQuery {
  q_page : option string;
  q_limit : option string;
  q_search : option string;
  q_status : option string;
  q_priority : option string;
  q_sortBy : option string;
  q_sortOrder : option string
}.

(** Body of the list response. *)
Record TaskPage : Type := mkTaskPage {
  tasks : list Task;
  currentPage : Num;
  totalPages : Num;
  totalTasks : Z
}.

(** Body of the stats response. *)
Record Stats : Type := mkStats {
  total : Z;
  pending : Z;
  completed : Z
}.

(** [p !== 'lit'] for a query parameter. *)
Definition param_neq (p : option string) (lit : string) : bool :=
  match p with
  | Some s => negb (s =? lit)%string
  | None => true
  end.

(** [p === 'lit'] for a query parameter. *)
Definition param_eq (p : option string) (lit : string) : bool :=
  negb (param_neq p lit).

(** [task.user.toString() !== req.user._id.toString()]. *)
Definition not_owner (task : Task) (caller : ObjectId) : bool :=
  negb (oid_toString (user task) =? oid_toString caller)%string.

Definition effective_page (q : Query) : Num :=
  num_or (parseInt (q_page q)) 1.
Definition effective_limit (q : Query) : Num :=
  num_or (parseInt (q_limit q)) 10.

(** The filter object of [getTasks], key by key as the handler adds
    them. *)
Definition buildFilter (caller : ObjectId) (q : Query) : Filter :=
  let f0 := mkFilter caller None None None in
  let f1 :=
    if truthy_param (q_search q)
    then mkFilter (f_user f0) (q_search q) (f_status f0) (f_priority f0)
    else f0 in
  let f2 :=
    if truthy_param (q_status q) && param_neq (q_status q) "all"
    then mkFilter (f_user f1) (f_or f1) (q_status q) (f_priority f1)
    else f1 in
  if truthy_param (q_priority q) && param_neq (q_priority q) "all"
  then mkFilter (f_user f2) (f_or f2) (f_status f2) (q_priority q)
  else f2.

(** The sort object of [getTasks]. *)
Definition buildSort (q : Query) : SortSpec :=
  match q_sortBy q with
  | Some sortBy =>
      if truthy_param (q_sortBy q)
      then mkSort sortBy (if param_eq (q_sortOrder q) "asc" then 1 else -1)
      else mkSort "createdAt" (-1)
  | None => mkSort "createdAt" (-1)
  end.

Section Controller.

Variable M : StoreModel.

Definition getTasks (docs : Collection) (caller : ObjectId) (q : Query)
    : Outcome TaskPage :=
  let page := effective_page q in
  let limit := effective_limit q in
  let skip := num_mul (num_sub page 1) limit in
  let filter := buildFilter caller q in
  let sort := buildSort q in
  match Task_countDocuments M docs filter with
  | None => Thrown 200 store_error
  | Some total_ =>
      match Task_find M docs filter sort skip limit with
      | None => Thrown 200 store_error
      | Some found =>
          Sent 200 (mkTaskPage found page (ceil_div total_ limit) total_)
      end
  end.

Definition getTask (docs : Collection) (caller id : ObjectId)
    : Outcome Task :=
  match Task_findById docs id with
  | None => Thrown 404 "Task not found"
  | Some task =>
      if not_owner task caller
      then Thrown 401 "Not authorized to access this task"
      else Sent 200 task
  end.

(** [now] is the time the store stamps the document with and [newId]
    the id it gives it. *)
Definition createTask (docs : Collection) (caller : ObjectId)
    (body : JsObject) (now : Z) (newId : ObjectId)
    : Collection * Outcome Task :=
  let title_ := get "title" body in
  let description_ := get "description" body in
  let priority_ := get "priority" body in
  let dueDate_ := get "dueDate" body in
  if negb (truthy title_) then (docs, Thrown 400 "Please add a title")
  else
    match Task_create M docs
            (new_document newId caller now title_ description_ priority_
                          dueDate_) with
    | None => (docs, Thrown 200 validation_error)
    | Some (docs', task) => (docs', Sent 201 task)
    end.

(** The update document [updateTask] hands to the store; [now] is
    [Date.now()]. *)
Definition update_document (task : Task) (body : JsObject) (now : Z)
    : JsObject :=
  let title_ := get "title" body in
  let description_ := get "description" body in
  let status_ := get "status" body in
  let priority_ := get "priority" body in
  let dueDate_ := get "dueDate" body in
  [ ("title", js_or title_ (title task));
    ("description",
      if is_defined description_ then description_ else description task);
    ("status", js_or status_ (status task));
    ("priority", js_or priority_ (priority task));
    ("dueDate", if is_defined dueDate_ then dueDate_ else dueDate task);
    ("updatedAt", JNum now) ].

(** The body sent is the updated document, or [null]. *)
Definition updateTask (docs : Collection) (caller id : ObjectId)
    (body : JsObject) (now : Z) : Collection * Outcome (option Task) :=
  match Task_findById docs id with
  | None => (docs, Thrown 404 "Task not found")
  | Some task =>
      if not_owner task caller
      then (docs, Thrown 401 "Not authorized to update this task")
      else
        match Task_findByIdAndUpdate M docs id
                (update_document task body now) with
        | None => (docs, Thrown 200 validation_error)
        | Some (docs', updatedTask) => (docs', Sent 200 updatedTask)
        end
  end.

Definition deleteTask (docs : Collection) (caller id : ObjectId)
    : Collection * Outcome string :=
  match Task_findById docs id with
  | None => (docs, Thrown 404 "Task not found")
  | Some task =>
      if not_owner task caller
      then (docs, Thrown 401 "Not authorized to delete this task")
      else (Task_findByIdAndDelete docs id, Sent 200 "Task removed")
  end.

(** The two assignments of [toggleTaskStatus] on the loaded document. *)
Definition toggled (task : Task) (now : Z) : Task :=
  let task1 :=
    mkTask (_id task) (user task) (title task) (description task)
      (if strict_eq_str (status task) "pending"
       then JStr "completed" else JStr "pending")
      (priority task) (dueDate task) (createdAt task) (updatedAt task) in
  mkTask (_id task1) (user task1) (title task1) (description task1)
    (status task1) (priority task1) (dueDate task1) (createdAt task1) now.

Definition toggleTaskStatus (docs : Collection) (caller id : ObjectId)
    (now : Z) : Collection * Outcome Task :=
  match Task_findById docs id with
  | None => (docs, Thrown 404 "Task not found")
  | Some task =>
      if not_owner task caller
      then (docs, Thrown 401 "Not authorized to update this task")
      else
        let task' := toggled task now in
        (Task_save docs task', Sent 200 task')
  end.

(** [c || 0] for a count that may be [undefined]. *)
Definition count_or_zero (c : option Z) : Z :=
  match c with
  | None => 0
  | Some z => if z =? 0 then 0 else z
  end.

(** [stats.find(s => s._id === lit)?.count || 0]. *)
Definition count_of (stats : list (JsVal * Z)) (lit : string) : Z :=
  count_or_zero
    (option_map snd (find (fun s => strict_eq_str (fst s) lit) stats)).

Definition getTaskStats (docs : Collection) (caller : ObjectId)
    : Outcome Stats :=
  let stats := Task_aggregate_by_status docs caller in
  match Task_countDocuments M docs (mkFilter caller None None None) with
  | None => Thrown 200 store_error
  | Some totalTasks_ =>
      Sent 200 (mkStats totalTasks_
                        (count_of stats "pending")
                        (count_of stats "completed"))
  end.

End Controller.

(** ** A concrete store, for running the handlers *)

Fixpoint is_prefix (p s : string) : bool :=
  match p, s with
  | EmptyString, _ => true
  | String a p', String b s' => Ascii.eqb a b && is_prefix p' s'
  | String _ _, EmptyString => false
  end.

Fixpoint contains (p s : string) : bool :=
  is_prefix p s
  || match s with
     | EmptyString => false
     | String _ s' => contains p s'
     end.

Definition lower (c : ascii) : ascii :=
  let n := nat_of_ascii c in
  if Nat.leb 65 n && Nat.leb n 90 then ascii_of_nat (n + 32) else c.

Fixpoint lowercase (s : string) : string :=
  match s with
  | EmptyString => EmptyString
  | String c r => String (lower c) (lowercase r)
  end.

Definition is_meta (c : ascii) : bool :=
  existsb (Ascii.eqb c)
    (list_ascii_of_string "\^$.|?*+()[]{}").

(** Patterns without metacharacters, matched as case-insensitive
    substrings; any other pattern is refused. *)
Definition literal_regex (pat : string) : option (string -> bool) :=
  if existsb is_meta (list_ascii_of_string pat) then None
  else Some (fun s => contains (lowercase pat) (lowercase s)).

(** Sort keys: no leading dollar sign. *)
Definition plain_key (k : string) : bool :=
  negb (is_prefix "$" k).

(** Modelled from the spec: the validators of the Task schema of
    [models/Task.js], as far as the data model states them: [title] is a
    non-empty text and [status] is one of the two values of the enum. *)
Definition spec_schema (t : Task) : bool :=
  match title t with
  | JStr s => negb (s =? "")%string
  | _ => false
  end
  && (strict_eq_str (status t) "pending"
      || strict_eq_str (status t) "completed").

(** A store that refuses every skip and limit beyond the integers up
    to 2^53, except that it takes an infinite limit as no limit and a
    skip that is not a number as no skip. *)
Definition lenient_window (skip limit : Num) : option (nat * option nat) :=
  match skip, limit with
  | NaN, PosInf => Some (0%nat, None)
  | Fin sk, PosInf =>
      if (0 <=? sk) && safe_integer sk then Some (Z.to_nat sk, None) else None
  | _, _ => None
  end.

Definition demo_store : StoreModel :=
  mkStoreModel literal_regex plain_key spec_schema lenient_window.

(** ** Vocabulary of the properties *)

Definition is_decimal (c : ascii) : bool :=
  let n := nat_of_ascii c in Nat.leb 48 n && Nat.leb n 57.

(** A text is non-numeric when, after leading white space and an
    optional sign, it does not start with a decimal digit. *)
Definition non_numeric (s : string) : bool :=
  match snd (strip_sign (skip_white s)) with
  | String c _ => negb (is_decimal c)
  | EmptyString => true
  end.

Definition owned_by (owner : ObjectId) (t : Task) : bool :=
  oid_eqb (user t) owner.

(** Number of tasks of [owner] whose status is the text [lit]. *)
Definition count_status (docs : Collection) (owner : ObjectId) (lit : string)
    : Z :=
  Z.of_nat (List.length
              (filter (fun t => strict_eq_str (status t) lit)
                      (filter (owned_by owner) docs))).

(** The count a grouped result holds for a key, zero when it has no
    group for it. *)
Definition group_lookup (k : JsVal) (g : list (JsVal * Z)) : Z :=
  match find (fun s => JsVal_eqb (fst s) k) g with
  | Some s => snd s
  | None => 0
  end.

(** The mathematical ceiling of [n / d] for a positive [d]: the least
    [c] with [n <= c * d]. *)
Definition is_ceiling (n d c : Z) : Prop :=
  (c - 1) * d < n <= c * d.

(** Sample data. *)
Definition buy_milk : Task :=
  mkTask "a1" "alice" (JStr "Buy milk") JUndefined (JStr "pending")
         (JStr "low") JUndefined 100 100.
Definition walk_dog : Task :=
  mkTask "a2" "alice" (JStr "Walk dog") (JStr "in the park")
         (JStr "completed") (JStr "high") JUndefined 200 250.
Definition milk_cow : Task :=
  mkTask "b1" "bob" (JStr "Milk the cow") JUndefined (JStr "pending")
         (JStr "low") JUndefined 300 300.
Definition read_book : Task :=
  mkTask "a3" "alice" (JStr "Read") JUndefined (JStr "pending")
         (JStr "medium") JUndefined 400 400.
Definition sample_db : Collection := [buy_milk; walk_dog; milk_cow; read_book].
Definition no_query : Query := mkQuery None None None None None None None.

(** [?page=1&limit=-5] and [?page=2&limit=-5]. *)
Definition first_page_of_minus_five : Query :=
  mkQuery (Some "1") (Some "-5") None None None None None.
Definition second_page_of_minus_five : Query :=
  mkQuery (Some "2") (Some "-5") None None None None None.
(** A text of [n] digits 9. *)
Fixpoint nines (n : nat) : string :=
  match n with
  | O => EmptyString
  | S k => String "9"%char (nines k)
  end.

(** [?limit=99...9] with 310 digits. *)
Definition huge_limit_query : Query :=
  mkQuery None (Some (nines 310)) None None None None None.

(** [?page=7&limit=2&search=MILK&sortBy=title&sortOrder=asc]. *)
Definition far_page_query : Query :=
  mkQuery (Some "7") (Some "2") (Some "MILK") None None (Some "title")
          (Some "asc").

(** ** The task router ([routes/taskRoutes.js]) *)

(** The request methods that reach the router.  A preflight request is
    answered by the CORS middleware before it. *)
Inductive Method : Type := GET | HEAD | POST | PUT | PATCH | DELETE.

Definition Method_eqb (a b : Method) : bool :=
  match a, b with
  | GET, GET | HEAD, HEAD | POST, POST | PUT, PUT | PATCH, PATCH
  | DELETE, DELETE => true
  | _, _ => false
  end.

(** A segment of a route path: a literal, or a named parameter. *)
Inductive Segment : Type :=
| Lit (s : string)
| Param.

Inductive HandlerName : Type :=
| H_getTasks
| H_createTask
| H_getTaskStats
| H_getTask
| H_updateTask
| H_deleteTask
| H_toggleTaskStatus.

(** One registration: a path and the handler of each method it is
    registered for. *)
Definition Route : Type := list Segment * list (Method * HandlerName).

(** The registrations, in the order of the file. *)
Definition taskRoutes : list Route :=
  [ ([], [(GET, H_getTasks); (POST, H_createTask)]);
    ([Lit "stats"], [(GET, H_getTaskStats)]);
    ([Param], [(GET, H_getTask); (PUT, H_updateTask); (DELETE, H_deleteTask)]);
    ([Param; Lit "toggle"], [(PATCH, H_toggleTaskStatus)]) ].

(** Matching a request path, given as its non-empty segments below the
    mount point as they stand in the URL, against a route path:
    literals match whatever the letter case, a parameter takes any
    segment.  The result is the list of the parameter texts, still
    percent-encoded. *)
Fixpoint match_path (pat : list Segment) (path : list string)
    : option (list string) :=
  match pat, path with
  | [], [] => Some []
  | Lit l :: pat', seg :: path' =>
      if (lowercase seg =? lowercase l)%string then match_path pat' path'
      else None
  | Param :: pat', seg :: path' =>
      option_map (cons seg) (match_path pat' path')
  | _, _ => None
  end.

(** A route registered for GET also serves HEAD when it has no HEAD
    handler of its own. *)
Definition method_as_registered (m : Method) : Method :=
  match m with HEAD => GET | _ => m end.

Fixpoint handler_for (m : Method) (hs : list (Method * HandlerName))
    : option HandlerName :=
  match hs with
  | [] => None
  | (m', h) :: r => if Method_eqb m m' then Some h else handler_for m r
  end.

(** Decoding the parameter texts ([decodeURIComponent] on each); one
    text that cannot be decoded fails the lot. *)
Fixpoint decode_params (decode : string -> option string)
    (raw : list string) : option (list string) :=
  match raw with
  | [] => Some []
  | x :: r =>
      match decode x, decode_params decode r with
      | Some v, Some vs => Some (v :: vs)
      | _, _ => None
      end
  end.

(** Where the router sends a request. *)
Inductive Dispatch : Type :=
| Routed (h : HandlerName) (params : list string)
| BadParameter
| Unrouted.

(** The registrations are tried in order.  One whose path matches has
    its parameters decoded; when that fails the request ends with an
    error and no later registration is tried.  Otherwise the first one
    that also has a handler for the method takes the request, with the
    decoded parameters. *)
Fixpoint dispatch (decode : string -> option string) (routes : list Route)
    (m : Method) (path : list string) : Dispatch :=
  match routes with
  | [] => Unrouted
  | (pat, hs) :: rest =>
      match match_path pat path with
      | None => dispatch decode rest m path
      | Some raw =>
          match decode_params decode raw with
          | None => BadParameter
          | Some params =>
              match handler_for (method_as_registered m) hs with
              | Some h => Routed h params
              | None => dispatch decode rest m path
              end
          end
      end
  end.

Record Request : Type := mkRequest {
  req_method : Method;
  req_path : list string;
  req_credentials : option string;
  req_query : Query;
  req_body : JsObject
}.

(** What the router does with a request. *)
Inductive Response : Type :=
| NotAuthenticated
| NoRoute
| ParameterError
| ListResponse (o : Outcome TaskPage)
| TaskResponse (o : Outcome Task)
| UpdateResponse (o : Outcome (option Task))
| DeleteResponse (o : Outcome string)
| StatsResponse (o : Outcome Stats).

(** [req.params.id]. *)
Definition param_id (params : list string) : ObjectId :=
  match params with
  | id :: _ => id
  | [] => ""
  end.

(** The router: [router.use(protect)] first, then the routes.
    [protect] (in [middleware/authMiddleware.js]) is taken as the
    function that resolves the credentials to the caller's id, or
    resolves nothing and ends the request; [decode] is
    [decodeURIComponent], [None] where it throws. *)
Definition taskRouter (decode : string -> option string)
    (protect : option string -> option ObjectId)
    (M : StoreModel) (docs : Collection) (req : Request) (now : Z)
    (newId : ObjectId) : Collection * Response :=
  match protect (req_credentials req) with
  | None => (docs, NotAuthenticated)
  | Some caller =>
      match dispatch decode taskRoutes (req_method req) (req_path req) with
      | Unrouted => (docs, NoRoute)
      | BadParameter => (docs, ParameterError)
      | Routed H_getTasks _ =>
          (docs, ListResponse (getTasks M docs caller (req_query req)))
      | Routed H_createTask _ =>
          let '(docs', o) := createTask M docs caller (req_body req) now newId
          in (docs', TaskResponse o)
      | Routed H_getTaskStats _ =>
          (docs, StatsResponse (getTaskStats M docs caller))
      | Routed H_getTask params =>
          (docs, TaskResponse (getTask docs caller (param_id params)))
      | Routed H_updateTask params =>
          let '(docs', o) :=
            updateTask M docs caller (param_id params) (req_body req) now
          in (docs', UpdateResponse o)
      | Routed H_deleteTask params =>
          let '(docs', o) := deleteTask docs caller (param_id params)
          in (docs', DeleteResponse o)
      | Routed H_toggleTaskStatus params =>
          let '(docs', o) :=
            toggleTaskStatus docs caller (param_id params) now
          in (docs', TaskResponse o)
      end
  end.

(** A decoder for running the router: it decodes the escapes of the
    characters below 128 and refuses every other escape. *)
Fixpoint percent_decode (s : string) : option string :=
  match s with
  | EmptyString => Some EmptyString
  | String "%"%char (String h (String l r)) =>
      match digit_of 16 h, digit_of 16 l with
      | Some a, Some b =>
          if a <? 8
          then option_map (String (ascii_of_nat (Z.to_nat (16 * a + b))))
                          (percent_decode r)
          else None
      | _, _ => None
      end
  | String "%"%char _ => None
  | String c r => option_map (String c) (percent_decode r)
  end.

(** ** More vocabulary *)

(** The tasks that do not belong to [owner]. *)
Definition tasks_of_others (owner : ObjectId) (docs : Collection)
    : Collection :=
  filter (fun t => negb (owned_by owner t)) docs.

(** Number of tasks of [owner] whose status is neither pending nor
    completed. *)
Definition count_other_status (docs : Collection) (owner : ObjectId) : Z :=
  Z.of_nat (List.length
              (filter (fun t => negb (strict_eq_str (status t) "pending")
                                && negb (strict_eq_str (status t) "completed"))
                      (filter (owned_by owner) docs))).

Definition unique_ids (docs : Collection) : Prop := NoDup (map _id docs).

(** The order a sort object puts two tasks in. *)
Definition in_order (s : SortSpec) (a b : Task) : Prop :=
  task_compare s a b <> Gt.

(** Credentials of the sample users. *)
Definition demo_protect (c : option string) : option ObjectId :=
  match c with
  | Some "token-alice" => Some "alice"
  | Some "token-bob" => Some "bob"
  | _ => None
  end.

Definition only_status (s : string) : Query :=
  mkQuery None None None (Some s) None None None.

Definition page_of_two (p : string) : Query :=
  mkQuery (Some p) (Some "2") None None None None None.

(** * Properties *)

(** ** Values and ids *)

Lemma JsVal_eqb_eq (a b : JsVal) : JsVal_eqb a b = true <-> a = b.
Proof.
  destruct a, b; simpl; split; intro H; try congruence; try reflexivity.
  - apply Bool.eqb_prop in H. now subst.
  - inversion H; subst. apply Bool.eqb_reflx.
  - apply Z.eqb_eq in H. now subst.
  - inversion H; subst. apply Z.eqb_refl.
  - apply String.eqb_eq in H. now subst.
  - inversion H; subst. apply String.eqb_refl.
Qed.

Lemma JsVal_eqb_refl (a : JsVal) : JsVal_eqb a a = true.
Proof. now apply JsVal_eqb_eq. Qed.

Lemma oid_eqb_eq (a b : ObjectId) : oid_eqb a b = true <-> a = b.
Proof. unfold oid_eqb, oid_toString. apply String.eqb_eq. Qed.

Lemma not_owner_true (t : Task) (caller : ObjectId) :
  not_owner t caller = true <-> user t <> caller.
Proof.
  unfold not_owner, oid_toString. rewrite negb_true_iff.
  apply String.eqb_neq.
Qed.

Lemma not_owner_false (t : Task) (caller : ObjectId) :
  not_owner t caller = false <-> user t = caller.
Proof.
  unfold not_owner, oid_toString. rewrite negb_false_iff.
  apply String.eqb_eq.
Qed.

(** ** Sorting and paging keep to the matching documents *)

Lemma insert_sorted_perm (s : SortSpec) (x : Task) (l : list Task) :
  Permutation (insert_sorted s x l) (x :: l).
Proof.
  induction l as [|y r IH]; simpl.
  - reflexivity.
  - destruct (task_compare s x y); try reflexivity.
    rewrite IH. apply perm_swap.
Qed.

Lemma sort_tasks_perm (s : SortSpec) (l : list Task) :
  Permutation (sort_tasks s l) l.
Proof.
  induction l as [|x r IH]; simpl.
  - reflexivity.
  - rewrite insert_sorted_perm. now apply perm_skip.
Qed.

Lemma sort_tasks_length (s : SortSpec) (l : list Task) :
  List.length (sort_tasks s l) = List.length l.
Proof. apply Permutation_length, sort_tasks_perm. Qed.

Lemma In_firstn_inv {A} (n : nat) (l : list A) (x : A) :
  In x (firstn n l) -> In x l.
Proof.
  intro H. rewrite <- (firstn_skipn n l). apply in_or_app. now left.
Qed.

Lemma In_skipn_inv {A} (n : nat) (l : list A) (x : A) :
  In x (skipn n l) -> In x l.
Proof.
  intro H. rewrite <- (firstn_skipn n l). apply in_or_app. now right.
Qed.

Lemma In_take_limit (n : Z) (l : list Task) (x : Task) :
  In x (take_limit n l) -> In x l.
Proof.
  unfold take_limit. destruct (n =? 0); [easy | apply In_firstn_inv].
Qed.

(** Whatever [Task.find] returns is a stored document the filter's
    predicate accepts. *)
(** A window of a list holds elements of the list only. *)
Lemma window_sound (M : StoreModel) (skip limit : Num) (l found : list Task) :
  window M skip limit l = Some found -> forall t, In t found -> In t l.
Proof.
  assert (Hw : forall w : nat * option nat, forall t,
            In t (match snd w with
                  | Some k => firstn k (skipn (fst w) l)
                  | None => skipn (fst w) l
                  end) -> In t l).
  { intros [n [k|]] t; simpl; intro H.
    - eapply In_skipn_inv, In_firstn_inv, H.
    - eapply In_skipn_inv, H. }
  assert (Hu : option_map
                 (fun w : nat * option nat =>
                    match snd w with
                    | Some k => firstn k (skipn (fst w) l)
                    | None => skipn (fst w) l
                    end) (unusual_window M skip limit) = Some found ->
               forall t, In t found -> In t l).
  { destruct (unusual_window M skip limit) as [w|]; simpl; [|discriminate].
    intros [= <-] t. apply Hw. }
  unfold window.
  destruct skip as [| | |sk]; try exact Hu.
  destruct limit as [| | |lim]; try exact Hu.
  destruct (safe_integer sk && safe_integer lim); [|exact Hu].
  destruct (0 <=? sk); [|discriminate].
  intros [= <-] t Hin. eapply In_skipn_inv, In_take_limit, Hin.
Qed.

Lemma Task_find_sound (M : StoreModel) (docs : Collection) (f : Filter)
    (s : SortSpec) (skip limit : Num) (found : list Task) (p : Task -> bool) :
  Task_find M docs f s skip limit = Some found ->
  matcher M f = Some p ->
  forall t, In t found -> In t docs /\ p t = true.
Proof.
  unfold Task_find. intros Hf Hm t Hin. rewrite Hm in Hf.
  destruct (sort_key_ok M (sortField s)); [|discriminate].
  apply (window_sound _ _ _ _ _ Hf) in Hin.
  apply (Permutation_in _ (sort_tasks_perm s _)) in Hin.
  now apply filter_In in Hin.
Qed.

(** The predicate of every filter includes the owner condition. *)
Lemma matcher_owner (M : StoreModel) (f : Filter) (p : Task -> bool) (t : Task) :
  matcher M f = Some p -> p t = true -> user t = f_user f.
Proof.
  unfold matcher. intros Hm Hp.
  assert (Hb : base_match f t = true).
  { destruct (f_or f) as [pat|].
    - destruct (compile_regex M pat); [|discriminate].
      injection Hm as <-. now apply andb_true_iff in Hp.
    - now injection Hm as <-. }
  unfold base_match in Hb.
  apply andb_true_iff in Hb as [Hb _]. apply andb_true_iff in Hb as [Hb _].
  now apply oid_eqb_eq.
Qed.

Lemma buildFilter_user (caller : ObjectId) (q : Query) :
  f_user (buildFilter caller q) = caller.
Proof.
  unfold buildFilter.
  destruct (truthy_param (q_search q));
    destruct (truthy_param (q_status q) && param_neq (q_status q) "all");
    destruct (truthy_param (q_priority q) && param_neq (q_priority q) "all");
    reflexivity.
Qed.

(** Every task on a page the list sends belongs to the caller. *)
Lemma getTasks_only_own (M : StoreModel) (docs : Collection)
    (caller : ObjectId) (q : Query) (code : Z) (page : TaskPage) (t : Task) :
  getTasks M docs caller q = Sent code page ->
  In t (tasks page) -> In t docs /\ user t = caller.
Proof.
  unfold getTasks. intros H Hin.
  destruct (Task_countDocuments M docs (buildFilter caller q)) eqn:Hc;
    [|discriminate].
  destruct (Task_find M docs (buildFilter caller q) (buildSort q) _ _)
    as [found|] eqn:Hf; [|discriminate].
  injection H as _ <-. simpl in Hin.
  unfold Task_countDocuments in Hc.
  destruct (matcher M (buildFilter caller q)) as [p|] eqn:Hm; [|discriminate].
  destruct (Task_find_sound _ _ _ _ _ _ _ _ Hf Hm t Hin) as [Hd Hp].
  split; [assumption|].
  rewrite (matcher_owner _ _ _ _ Hm Hp). apply buildFilter_user.
Qed.

(** ** Ownership scoping *)

(** C1. A task owned by someone else than the caller never appears on a
    page the list operation sends to the caller: the filter the handler
    builds always carries [user = caller].  Reading such a task by id is
    rejected: the handler throws with status 401 and sends no body. *)
Theorem non_owner_never_sees_task (M : StoreModel) (docs : Collection)
    (caller : ObjectId) (q : Query) (T : Task) :
  user T <> caller ->
  f_user (buildFilter caller q) = caller
  /\ (forall code page,
        getTasks M docs caller q = Sent code page -> ~ In T (tasks page))
  /\ (forall id,
        Task_findById docs id = Some T ->
        getTask docs caller id
          = Thrown 401 "Not authorized to access this task").
Proof.
  intro Hneq. split; [apply buildFilter_user|]. split.
  - intros code page Hsent Hin.
    apply Hneq. eapply getTasks_only_own; eassumption.
  - intros id Hfind. unfold getTask. rewrite Hfind.
    apply not_owner_true in Hneq. now rewrite Hneq.
Qed.

Lemma non_owner_never_sees_task_witness :
  user buy_milk <> "bob"
  /\ f_user (buildFilter "bob" no_query) = "bob"
  /\ (forall code page,
        getTasks demo_store sample_db "bob" no_query = Sent code page ->
        ~ In buy_milk (tasks page))
  /\ (forall id,
        Task_findById sample_db id = Some buy_milk ->
        getTask sample_db "bob" id
          = Thrown 401 "Not authorized to access this task").
Proof.
  split.
  - discriminate.
  - apply (non_owner_never_sees_task demo_store sample_db "bob" no_query
             buy_milk).
    discriminate.
Defined.

(** ** Existence before ownership *)

(** C2. For get, update, delete and toggle on an id: when no task has
    the id the handler throws "Task not found" with status 404, whoever
    the caller is, and when the task exists and the caller is not its
    owner the handler throws with status 401.  In both cases the
    collection is left as it was. *)
Theorem missing_is_404_foreign_is_401 (M : StoreModel) (docs : Collection)
    (caller id : ObjectId) (body : JsObject) (now : Z) :
  (Task_findById docs id = None ->
     getTask docs caller id = Thrown 404 "Task not found"
     /\ updateTask M docs caller id body now
          = (docs, Thrown 404 "Task not found")
     /\ deleteTask docs caller id = (docs, Thrown 404 "Task not found")
     /\ toggleTaskStatus docs caller id now
          = (docs, Thrown 404 "Task not found"))
  /\ (forall task,
        Task_findById docs id = Some task -> user task <> caller ->
        getTask docs caller id
          = Thrown 401 "Not authorized to access this task"
        /\ updateTask M docs caller id body now
             = (docs, Thrown 401 "Not authorized to update this task")
        /\ deleteTask docs caller id
             = (docs, Thrown 401 "Not authorized to delete this task")
        /\ toggleTaskStatus docs caller id now
             = (docs, Thrown 401 "Not authorized to update this task")).
Proof.
  split.
  - intro Hnone. unfold getTask, updateTask, deleteTask, toggleTaskStatus.
    rewrite Hnone. repeat split.
  - intros task Hsome Hneq. apply not_owner_true in Hneq.
    unfold getTask, updateTask, deleteTask, toggleTaskStatus.
    rewrite Hsome, Hneq. repeat split.
Qed.

Lemma missing_is_404_foreign_is_401_witness :
  Task_findById sample_db "zz" = None
  /\ Task_findById sample_db "a1" = Some buy_milk
  /\ user buy_milk <> "bob"
  /\ getTask sample_db "bob" "zz" = Thrown 404 "Task not found"
  /\ deleteTask sample_db "bob" "a1"
       = (sample_db, Thrown 401 "Not authorized to delete this task").
Proof.
  pose proof (missing_is_404_foreign_is_401 demo_store sample_db "bob" "zz"
                [] 500) as [H404 _].
  pose proof (missing_is_404_foreign_is_401 demo_store sample_db "bob" "a1"
                [] 500) as [_ H401].
  split; [reflexivity|]. split; [reflexivity|]. split; [discriminate|].
  split.
  - apply H404. reflexivity.
  - apply (H401 buy_milk); [reflexivity | discriminate].
Defined.

(** ** Lookup and write-back by id *)

Lemma findById_id (docs : Collection) (id : ObjectId) (t : Task) :
  Task_findById docs id = Some t -> _id t = id.
Proof.
  unfold Task_findById. intro H. apply find_some in H as [_ H].
  now apply oid_eqb_eq.
Qed.

Lemma findById_In (docs : Collection) (id : ObjectId) (t : Task) :
  Task_findById docs id = Some t -> In t docs.
Proof. unfold Task_findById. intro H. now apply find_some in H. Qed.

Lemma findById_replace (docs : Collection) (id : ObjectId) (t t' : Task) :
  Task_findById docs id = Some t -> _id t' = id ->
  Task_findById (replace_by_id id t' docs) id = Some t'.
Proof.
  unfold Task_findById. intros H Hid.
  induction docs as [|d r IH]; simpl in *; [discriminate|].
  destruct (oid_eqb (_id d) id) eqn:E; simpl.
  - assert (E' : oid_eqb (_id t') id = true) by now apply oid_eqb_eq.
    now rewrite E'.
  - rewrite E. now apply IH.
Qed.

Lemma replace_by_id_users (docs : Collection) (id : ObjectId) (t t' : Task) :
  Task_findById docs id = Some t -> user t' = user t ->
  map user (replace_by_id id t' docs) = map user docs.
Proof.
  unfold Task_findById. intros H Hu.
  induction docs as [|d r IH]; simpl in *; [reflexivity|].
  destruct (oid_eqb (_id d) id) eqn:E; simpl.
  - injection H as ->. now rewrite Hu.
  - f_equal. now apply IH.
Qed.

(** ** Update *)

Lemma set_field_user (k : string) (v : JsVal) (t : Task) :
  k <> "user" -> user (set_field k v t) = user t.
Proof.
  intro Hk. unfold set_field.
  repeat match goal with
         | |- context [(k =? ?lit)%string] =>
             destruct (String.eqb_spec k lit); [subst; try congruence|]
         end;
    try reflexivity; destruct v; reflexivity.
Qed.

Lemma apply_update_user (u : JsObject) (t : Task) :
  ~ In "user" (keys u) -> user (apply_update u t) = user t.
Proof.
  unfold apply_update, keys. revert t.
  induction u as [|[k v] r IH]; intros t Hnot; simpl in *.
  - reflexivity.
  - rewrite IH by tauto. apply set_field_user. intro E. apply Hnot. now left.
Qed.

Lemma update_document_keys (task : Task) (body : JsObject) (now : Z) :
  keys (update_document task body now)
  = ["title"; "description"; "status"; "priority"; "dueDate"; "updatedAt"].
Proof. reflexivity. Qed.

(** What writing the update document of [updateTask] leaves in the
    stored task. *)
Lemma apply_update_document (task : Task) (body : JsObject) (now : Z) :
  apply_update (update_document task body now) task
  = mkTask (_id task) (user task)
      (js_or (get "title" body) (title task))
      (if is_defined (get "description" body)
       then get "description" body else description task)
      (js_or (get "status" body) (status task))
      (js_or (get "priority" body) (priority task))
      (if is_defined (get "dueDate" body)
       then get "dueDate" body else dueDate task)
      (createdAt task) now.
Proof. reflexivity. Qed.

(** C3. Update is partial, field by field.  For [title], [status] and
    [priority] a falsy value in the body (absent, empty) keeps the stored
    value and any other value replaces it; for [description] and
    [dueDate] only an absent value keeps the stored value and every
    supplied one, empty ones too, is written; [updatedAt] becomes the
    current time.  A body that supplies none of the five fields leaves
    them all as they were. *)
Theorem update_is_partial_per_field (M : StoreModel) (docs : Collection)
    (caller id : ObjectId) (body : JsObject) (now : Z) (task : Task) :
  Task_findById docs id = Some task ->
  user task = caller ->
  validate M (apply_update (update_document task body now) task) = true ->
  exists task',
    updateTask M docs caller id body now
      = (replace_by_id id task' docs, Sent 200 (Some task'))
    /\ Task_findById (replace_by_id id task' docs) id = Some task'
    /\ title task'
         = (if truthy (get "title" body) then get "title" body
            else title task)
    /\ status task'
         = (if truthy (get "status" body) then get "status" body
            else status task)
    /\ priority task'
         = (if truthy (get "priority" body) then get "priority" body
            else priority task)
    /\ description task'
         = (match get "description" body with
            | JUndefined => description task
            | supplied => supplied
            end)
    /\ dueDate task'
         = (match get "dueDate" body with
            | JUndefined => dueDate task
            | supplied => supplied
            end)
    /\ updatedAt task' = now
    /\ (get "title" body = JUndefined ->
        get "description" body = JUndefined ->
        get "status" body = JUndefined ->
        get "priority" body = JUndefined ->
        get "dueDate" body = JUndefined ->
        task' = mkTask (_id task) (user task) (title task) (description task)
                  (status task) (priority task) (dueDate task)
                  (createdAt task) now).
Proof.
  intros Hfind Hown Hvalid.
  exists (apply_update (update_document task body now) task).
  split.
  - unfold updateTask, Task_findByIdAndUpdate. rewrite Hfind.
    apply not_owner_false in Hown. rewrite Hown, Hvalid. reflexivity.
  - split.
    + apply findById_replace with (t := task); [assumption|].
      rewrite apply_update_document. simpl. eapply findById_id; eassumption.
    + rewrite apply_update_document. simpl. unfold js_or.
      repeat split.
      * now destruct (get "description" body).
      * now destruct (get "dueDate" body).
      * intros -> -> -> -> ->. reflexivity.
Qed.

Lemma update_is_partial_per_field_witness :
  exists task',
    updateTask demo_store sample_db "alice" "a1"
        [("title", JStr ""); ("description", JStr "")] 500
      = (replace_by_id "a1" task' sample_db, Sent 200 (Some task'))
    /\ title task' = JStr "Buy milk"
    /\ description task' = JStr ""
    /\ updatedAt task' = 500.
Proof.
  destruct (update_is_partial_per_field demo_store sample_db "alice" "a1"
              [("title", JStr ""); ("description", JStr "")] 500 buy_milk)
    as [task' (Hrun & _ & Ht & _ & _ & Hd & _ & Hu & _)];
    [reflexivity | reflexivity | reflexivity |].
  exists task'. repeat split; assumption.
Defined.

(** C9. Update never changes the owner of a stored task: whatever the
    body holds, a [user] key included, the update document has exactly
    the keys title, description, status, priority, dueDate and
    updatedAt, and the owners of the stored tasks are the same, place by
    place, after the call as before. *)
Theorem update_never_changes_owner (M : StoreModel) (docs : Collection)
    (caller id : ObjectId) (body : JsObject) (now : Z) :
  map user (fst (updateTask M docs caller id body now)) = map user docs
  /\ (forall task, ~ In "user" (keys (update_document task body now)))
  /\ (forall code task',
        snd (updateTask M docs caller id body now) = Sent code (Some task') ->
        option_map user (Task_findById docs id) = Some (user task')).
Proof.
  split; [|split].
  - unfold updateTask, Task_findByIdAndUpdate.
    destruct (Task_findById docs id) as [task|] eqn:Hfind; [|reflexivity].
    destruct (not_owner task caller); [reflexivity|].
    destruct (validate M _); [|reflexivity]. cbn [fst].
    apply replace_by_id_users with (t := task); [assumption|].
    apply apply_update_user. rewrite update_document_keys. simpl.
    intuition discriminate.
  - intro task. rewrite update_document_keys. simpl. intuition discriminate.
  - intros code task'. unfold updateTask, Task_findByIdAndUpdate.
    destruct (Task_findById docs id) as [task|] eqn:Hfind; [|discriminate].
    destruct (not_owner task caller); [discriminate|].
    destruct (validate M _); [|discriminate]. cbn [snd option_map].
    intro H. injection H as _ <-. reflexivity.
Qed.

Lemma update_never_changes_owner_witness :
  map user (fst (updateTask demo_store sample_db "alice" "a1"
                   [("user", JStr "bob"); ("title", JStr "Buy oat milk")]
                   500))
  = ["alice"; "alice"; "bob"; "alice"]
  /\ option_map user (Task_findById sample_db "a1") = Some "alice".
Proof.
  destruct (update_never_changes_owner demo_store sample_db "alice" "a1"
              [("user", JStr "bob"); ("title", JStr "Buy oat milk")] 500)
    as (Hmap & _ & Hsent).
  split; [exact Hmap|].
  apply (Hsent 200
           (mkTask "a1" "alice" (JStr "Buy oat milk") JUndefined
                   (JStr "pending") (JStr "low") JUndefined 100 500)).
  reflexivity.
Defined.

(** ** Create *)

(** C4. Create with a falsy title (absent, empty) throws "Please add a
    title" with status 400 and leaves the collection as it was.
    Otherwise the document handed to the store has the caller as owner;
    once the store has taken it the collection holds one more task, with
    status pending and both timestamps set to the time of creation, and
    that task is sent with status 201. *)
Theorem create_requires_title (M : StoreModel) (docs : Collection)
    (caller : ObjectId) (body : JsObject) (now : Z) (newId : ObjectId) :
  (truthy (get "title" body) = false ->
     createTask M docs caller body now newId
       = (docs, Thrown 400 "Please add a title"))
  /\ (truthy (get "title" body) = true ->
      validate M (new_document newId caller now (get "title" body)
                    (get "description" body) (get "priority" body)
                    (get "dueDate" body)) = true ->
      exists task,
        createTask M docs caller body now newId
          = (docs ++ [task], Sent 201 task)
        /\ user task = caller
        /\ status task = JStr "pending"
        /\ createdAt task = now /\ updatedAt task = now
        /\ _id task = newId
        /\ title task = get "title" body
        /\ description task = get "description" body
        /\ priority task = get "priority" body
        /\ dueDate task = get "dueDate" body).
Proof.
  split.
  - intro Hfalsy. unfold createTask. now rewrite Hfalsy.
  - intros Htruthy Hvalid. eexists. split.
    + unfold createTask, Task_create. rewrite Htruthy, Hvalid. reflexivity.
    + repeat split.
Qed.

Lemma create_requires_title_witness :
  createTask demo_store sample_db "bob" [("title", JStr "")] 500 "b2"
    = (sample_db, Thrown 400 "Please add a title")
  /\ createTask demo_store sample_db "bob" [("description", JStr "x")] 500 "b2"
    = (sample_db, Thrown 400 "Please add a title")
  /\ exists task,
       createTask demo_store sample_db "bob" [("title", JStr "Buy milk")]
                  500 "b2"
         = (sample_db ++ [task], Sent 201 task)
       /\ user task = "bob" /\ status task = JStr "pending".
Proof.
  split; [|split].
  - apply (create_requires_title demo_store sample_db "bob"
             [("title", JStr "")] 500 "b2"). reflexivity.
  - apply (create_requires_title demo_store sample_db "bob"
             [("description", JStr "x")] 500 "b2"). reflexivity.
  - destruct (create_requires_title demo_store sample_db "bob"
                [("title", JStr "Buy milk")] 500 "b2") as [_ H].
    destruct H as [task (Hrun & Hu & Hs & _)]; [reflexivity | reflexivity |].
    exists task. repeat split; assumption.
Defined.

(** ** Toggle *)

Lemma toggled_id (task : Task) (now : Z) : _id (toggled task now) = _id task.
Proof. reflexivity. Qed.

Lemma toggleTaskStatus_owner (docs : Collection) (caller id : ObjectId)
    (now : Z) (task : Task) :
  Task_findById docs id = Some task -> user task = caller ->
  toggleTaskStatus docs caller id now
    = (replace_by_id id (toggled task now) docs, Sent 200 (toggled task now))
  /\ Task_findById (replace_by_id id (toggled task now) docs) id
       = Some (toggled task now).
Proof.
  intros Hfind Hown. pose proof (findById_id _ _ _ Hfind) as Hid. split.
  - unfold toggleTaskStatus, Task_save. rewrite Hfind.
    apply not_owner_false in Hown. rewrite Hown, toggled_id, Hid. reflexivity.
  - apply findById_replace with (t := task); [assumption|].
    now rewrite toggled_id.
Qed.

(** C5 (as amended). For a task whose status is pending or completed, a
    toggle by the owner stores and sends the task with the other status
    and with [updatedAt] set to the clock reading of that toggle; a
    second toggle brings the status back, and nothing but [updatedAt]
    differs from the task before the two toggles.  [updatedAt] grows
    strictly at a toggle whose clock reading is later than the stored
    value. *)
Theorem toggle_twice_restores_status (docs : Collection)
    (caller id : ObjectId) (now1 now2 : Z) (task : Task) :
  Task_findById docs id = Some task ->
  user task = caller ->
  status task = JStr "pending" \/ status task = JStr "completed" ->
  exists docs1 t1 docs2 t2,
    toggleTaskStatus docs caller id now1 = (docs1, Sent 200 t1)
    /\ Task_findById docs1 id = Some t1
    /\ toggleTaskStatus docs1 caller id now2 = (docs2, Sent 200 t2)
    /\ Task_findById docs2 id = Some t2
    /\ (status task = JStr "pending" -> status t1 = JStr "completed")
    /\ (status task = JStr "completed" -> status t1 = JStr "pending")
    /\ status t2 = status task
    /\ updatedAt t1 = now1
    /\ updatedAt t2 = now2
    /\ t2 = mkTask (_id task) (user task) (title task) (description task)
              (status task) (priority task) (dueDate task) (createdAt task)
              now2
    /\ (updatedAt task < now1 -> updatedAt task < updatedAt t1)
    /\ (updatedAt t1 < now2 -> updatedAt t1 < updatedAt t2).
Proof.
  intros Hfind Hown Hstatus.
  destruct (toggleTaskStatus_owner docs caller id now1 task Hfind Hown)
    as [Hrun1 Hfind1].
  assert (Hown1 : user (toggled task now1) = caller) by exact Hown.
  destruct (toggleTaskStatus_owner _ caller id now2 _ Hfind1 Hown1)
    as [Hrun2 Hfind2].
  exists (replace_by_id id (toggled task now1) docs), (toggled task now1).
  exists (replace_by_id id (toggled (toggled task now1) now2)
            (replace_by_id id (toggled task now1) docs)),
         (toggled (toggled task now1) now2).
  repeat (split; [assumption|]).
  assert (Hback : status (toggled (toggled task now1) now2) = status task).
  { destruct Hstatus as [E|E]; unfold toggled; simpl; rewrite E; reflexivity. }
  split; [intro E; unfold toggled; simpl; now rewrite E|].
  split; [intro E; unfold toggled; simpl; now rewrite E|].
  split; [exact Hback|].
  split; [reflexivity|]. split; [reflexivity|].
  split.
  - unfold toggled in *. simpl in *. now rewrite Hback.
  - split; intro H; exact H.
Qed.

Lemma toggle_twice_restores_status_witness :
  exists docs1 t1 docs2 t2,
    toggleTaskStatus sample_db "alice" "a1" 500 = (docs1, Sent 200 t1)
    /\ toggleTaskStatus docs1 "alice" "a1" 600 = (docs2, Sent 200 t2)
    /\ status t1 = JStr "completed"
    /\ status t2 = status buy_milk
    /\ updatedAt buy_milk < updatedAt t1.
Proof.
  destruct (toggle_twice_restores_status sample_db "alice" "a1" 500 600
              buy_milk)
    as (docs1 & t1 & docs2 & t2 & H1 & _ & H2 & _ & Hp & _ & Hb & _ & _ & _
        & Hlt & _);
    [reflexivity | reflexivity | left; reflexivity |].
  exists docs1, t1, docs2, t2.
  repeat split; try assumption.
  - apply Hp. reflexivity.
  - apply Hlt. reflexivity.
Defined.

(** C5, as first stated, fails: a toggle whose clock reading equals the
    stored [updatedAt] (here 100) leaves [updatedAt] where it was, so it
    does not strictly increase. *)
Lemma toggle_same_instant_counterexample :
  Task_findById sample_db "a1" = Some buy_milk
  /\ status buy_milk = JStr "pending"
  /\ exists docs1 t1,
       toggleTaskStatus sample_db "alice" "a1" 100 = (docs1, Sent 200 t1)
       /\ status t1 = JStr "completed"
       /\ ~ updatedAt buy_milk < updatedAt t1.
Proof.
  split; [reflexivity|]. split; [reflexivity|].
  eexists. eexists. split; [reflexivity|]. split; [reflexivity|].
  simpl. lia.
Qed.

(** ** Stats *)

Lemma count_of_lookup (g : list (JsVal * Z)) (lit : string) :
  count_of g lit = group_lookup (JStr lit) g.
Proof.
  unfold count_of, group_lookup, strict_eq_str.
  destruct (find _ g) as [[k c]|]; simpl; [|reflexivity].
  destruct (Z.eqb_spec c 0); congruence.
Qed.

Lemma group_lookup_bump (k k' : JsVal) (g : list (JsVal * Z)) :
  group_lookup k (bump k' g)
  = group_lookup k g + (if JsVal_eqb k' k then 1 else 0).
Proof.
  unfold group_lookup.
  induction g as [|[a c] r IH]; simpl.
  - destruct (JsVal_eqb k' k); reflexivity.
  - destruct (JsVal_eqb k' a) eqn:Ea; simpl.
    + apply JsVal_eqb_eq in Ea. subst a.
      destruct (JsVal_eqb k' k); simpl; lia.
    + destruct (JsVal_eqb a k) eqn:Ek; simpl.
      * apply JsVal_eqb_eq in Ek. subst a. rewrite Ea. lia.
      * exact IH.
Qed.

Lemma group_lookup_fold (key : Task -> JsVal) (k : JsVal) (l : list Task)
    (g : list (JsVal * Z)) :
  group_lookup k (fold_left (fun g t => bump (key t) g) l g)
  = group_lookup k g
    + Z.of_nat (List.length (filter (fun t => JsVal_eqb (key t) k) l)).
Proof.
  revert g. induction l as [|t r IH]; intro g; simpl.
  - lia.
  - rewrite IH, group_lookup_bump.
    destruct (JsVal_eqb (key t) k); simpl List.length; lia.
Qed.

Lemma group_key_is_text (v : JsVal) (lit : string) :
  JsVal_eqb (group_key v) (JStr lit) = strict_eq_str v lit.
Proof. destruct v; reflexivity. Qed.

Lemma count_of_aggregate (docs : Collection) (owner : ObjectId) (lit : string) :
  count_of (Task_aggregate_by_status docs owner) lit
  = count_status docs owner lit.
Proof.
  rewrite count_of_lookup. unfold Task_aggregate_by_status, count_status.
  rewrite (group_lookup_fold (fun t => group_key (status t))). simpl.
  f_equal. f_equal. apply filter_ext. intro t. apply group_key_is_text.
Qed.

Lemma filter_none {A} (p : A -> bool) (l : list A) :
  (forall x, In x l -> p x = false) -> filter p l = [].
Proof.
  induction l as [|x r IH]; simpl; intro H; [reflexivity|].
  rewrite (H x) by now left. apply IH. intros y Hy. apply H. now right.
Qed.

Lemma two_way_split (l : list Task) :
  (forall t, In t l ->
     status t = JStr "pending" \/ status t = JStr "completed") ->
  Z.of_nat (List.length l)
  = Z.of_nat (List.length
                (filter (fun t => strict_eq_str (status t) "pending") l))
    + Z.of_nat (List.length
                  (filter (fun t => strict_eq_str (status t) "completed") l)).
Proof.
  induction l as [|t r IH]; intro H; [reflexivity|].
  assert (IH' := IH (fun x Hx => H x (or_intror Hx))).
  cbn [filter List.length].
  destruct (H t (or_introl eq_refl)) as [E|E]; rewrite E;
    cbn [strict_eq_str JsVal_eqb String.eqb Ascii.eqb Bool.eqb List.length];
    lia.
Qed.

Lemma owner_filter_matcher (M : StoreModel) (owner : ObjectId) (docs : Collection) :
  Task_countDocuments M docs (mkFilter owner None None None)
  = Some (Z.of_nat (List.length (filter (owned_by owner) docs))).
Proof.
  unfold Task_countDocuments, matcher. simpl. f_equal. f_equal. f_equal.
  apply filter_ext. intro t. unfold base_match, owned_by. simpl.
  now rewrite !andb_true_r.
Qed.

(** C7. Stats are computed over the caller's tasks only: the total is
    the number of tasks the caller owns, and the pending and completed
    counts are the numbers of those with that status, zero when there is
    none; tasks of other owners change nothing.  When every task of the
    caller is pending or completed, total = pending + completed. *)
Theorem stats_count_own_tasks (M : StoreModel) (docs : Collection)
    (caller : ObjectId) :
  exists s,
    getTaskStats M docs caller = Sent 200 s
    /\ total s = Z.of_nat (List.length (filter (owned_by caller) docs))
    /\ pending s = count_status docs caller "pending"
    /\ completed s = count_status docs caller "completed"
    /\ 0 <= pending s /\ 0 <= completed s
    /\ ((forall t, In t docs -> user t = caller ->
                   status t <> JStr "pending") -> pending s = 0)
    /\ ((forall t, In t docs -> user t = caller ->
                   status t <> JStr "completed") -> completed s = 0)
    /\ (forall others,
          (forall t, In t others -> user t <> caller) ->
          getTaskStats M (docs ++ others) caller = Sent 200 s)
    /\ ((forall t, In t docs -> user t = caller ->
           status t = JStr "pending" \/ status t = JStr "completed") ->
        total s = pending s + completed s).
Proof.
  assert (Hrun : forall d,
            getTaskStats M d caller
            = Sent 200 (mkStats
                          (Z.of_nat (List.length (filter (owned_by caller) d)))
                          (count_status d caller "pending")
                          (count_status d caller "completed"))).
  { intro d. unfold getTaskStats.
    rewrite owner_filter_matcher, !count_of_aggregate. reflexivity. }
  assert (Hzero : forall lit,
            (forall t, In t docs -> user t = caller -> status t <> JStr lit) ->
            count_status docs caller lit = 0).
  { intros lit H. unfold count_status. rewrite filter_none; [reflexivity|].
    intros t Ht. apply filter_In in Ht as [Hin Hown].
    apply oid_eqb_eq in Hown.
    destruct (strict_eq_str (status t) lit) eqn:E; [|reflexivity].
    apply JsVal_eqb_eq in E. now destruct (H t Hin Hown). }
  eexists. split; [apply Hrun|]. cbn [total pending completed].
  split; [reflexivity|]. split; [reflexivity|]. split; [reflexivity|].
  split; [unfold count_status; lia|]. split; [unfold count_status; lia|].
  split; [apply Hzero|]. split; [apply Hzero|]. split.
  - intros others Hothers. rewrite Hrun. unfold count_status.
    rewrite filter_app.
    rewrite (filter_none (owned_by caller) others).
    + now rewrite app_nil_r.
    + intros t Ht. unfold owned_by.
      destruct (oid_eqb (user t) caller) eqn:E; [|reflexivity].
      apply oid_eqb_eq in E. now destruct (Hothers t Ht).
  - intro Hall. unfold count_status. apply two_way_split.
    intros t Ht. apply filter_In in Ht as [Hin Hown].
    apply oid_eqb_eq in Hown. now apply Hall.
Qed.

Lemma stats_count_own_tasks_witness :
  getTaskStats demo_store sample_db "alice" = Sent 200 (mkStats 3 2 1)
  /\ getTaskStats demo_store sample_db "carol" = Sent 200 (mkStats 0 0 0)
  /\ exists s, getTaskStats demo_store sample_db "alice" = Sent 200 s
               /\ total s = pending s + completed s.
Proof.
  split; [reflexivity|]. split; [reflexivity|].
  destruct (stats_count_own_tasks demo_store sample_db "alice")
    as [s (Hrun & _ & _ & _ & _ & _ & _ & _ & _ & Hsum)].
  exists s. split; [exact Hrun|]. apply Hsum.
  intros t Hin _. simpl in Hin.
  destruct Hin as [<-|[<-|[<-|[<-|[]]]]]; simpl; auto.
Defined.

(** ** The status and priority filters *)

Lemma set_status_only (v : JsVal) (t : Task) :
  set_field "status" v t
  = mkTask (_id t) (user t) (title t) (description t) v (priority t)
           (dueDate t) (createdAt t) (updatedAt t).
Proof. reflexivity. Qed.

Lemma set_priority_only (v : JsVal) (t : Task) :
  set_field "priority" v t
  = mkTask (_id t) (user t) (title t) (description t) (status t) v
           (dueDate t) (createdAt t) (updatedAt t).
Proof. reflexivity. Qed.

Lemma buildFilter_status (caller : ObjectId) (q : Query) :
  f_status (buildFilter caller q)
  = if truthy_param (q_status q) && param_neq (q_status q) "all"
    then q_status q else None.
Proof.
  unfold buildFilter.
  destruct (truthy_param (q_search q));
    destruct (truthy_param (q_status q) && param_neq (q_status q) "all");
    destruct (truthy_param (q_priority q) && param_neq (q_priority q) "all");
    reflexivity.
Qed.

Lemma buildFilter_priority (caller : ObjectId) (q : Query) :
  f_priority (buildFilter caller q)
  = if truthy_param (q_priority q) && param_neq (q_priority q) "all"
    then q_priority q else None.
Proof.
  unfold buildFilter.
  destruct (truthy_param (q_search q));
    destruct (truthy_param (q_status q) && param_neq (q_status q) "all");
    destruct (truthy_param (q_priority q) && param_neq (q_priority q) "all");
    reflexivity.
Qed.

Lemma param_guard_iff (p : option string) (s : string) :
  (if truthy_param p && param_neq p "all" then p else None) = Some s
  <-> p = Some s /\ s <> "" /\ s <> "all".
Proof.
  destruct p as [x|]; simpl.
  - destruct (String.eqb_spec x ""), (String.eqb_spec x "all"); simpl;
      split; try discriminate;
      try (intros [E [H1 H2]]; injection E as ->; congruence).
    intros [= ->]. auto.
  - split; [discriminate | intros [E _]; discriminate].
Qed.

Lemma matcher_cases (M : StoreModel) (f : Filter) (p : Task -> bool) :
  matcher M f = Some p ->
  exists extra : Task -> bool,
    (forall t, p t = base_match f t && extra t)
    /\ (forall t v, extra (set_field "status" v t) = extra t)
    /\ (forall t v, extra (set_field "priority" v t) = extra t).
Proof.
  unfold matcher. intro H. destruct (f_or f) as [pat|].
  - destruct (compile_regex M pat) as [r|]; [|discriminate].
    injection H as <-.
    exists (fun t => regex_on r (title t) || regex_on r (description t)).
    repeat split.
  - injection H as <-. exists (fun _ => true).
    split; [intro t; now rewrite andb_true_r | split; reflexivity].
Qed.

(** C8. In the list operation the status condition is in the filter
    exactly when the [status] parameter is present, non-empty and not
    "all", and then it is the parameter's text; likewise for priority.
    Without the condition the filter accepts a task whatever its status
    (priority) is; with it only tasks with that very status
    (priority). *)
Theorem status_priority_filter_iff (caller : ObjectId) (q : Query) :
  (forall s, f_status (buildFilter caller q) = Some s
             <-> q_status q = Some s /\ s <> "" /\ s <> "all")
  /\ (forall s, f_priority (buildFilter caller q) = Some s
                <-> q_priority q = Some s /\ s <> "" /\ s <> "all")
  /\ (q_status q = None \/ q_status q = Some "" \/ q_status q = Some "all" ->
      f_status (buildFilter caller q) = None)
  /\ (q_priority q = None \/ q_priority q = Some ""
      \/ q_priority q = Some "all" ->
      f_priority (buildFilter caller q) = None)
  /\ (forall M p,
        matcher M (buildFilter caller q) = Some p ->
        (f_status (buildFilter caller q) = None ->
         forall t v, p (set_field "status" v t) = p t)
        /\ (f_priority (buildFilter caller q) = None ->
            forall t v, p (set_field "priority" v t) = p t)
        /\ (forall s t, f_status (buildFilter caller q) = Some s ->
                        p t = true -> status t = JStr s)
        /\ (forall s t, f_priority (buildFilter caller q) = Some s ->
                        p t = true -> priority t = JStr s)).
Proof.
  split; [intro s; rewrite buildFilter_status; apply param_guard_iff|].
  split; [intro s; rewrite buildFilter_priority; apply param_guard_iff|].
  split.
  { rewrite buildFilter_status. intros [-> | [-> | ->]]; reflexivity. }
  split.
  { rewrite buildFilter_priority. intros [-> | [-> | ->]]; reflexivity. }
  intros M p Hm.
  destruct (matcher_cases M _ p Hm) as [extra (Hp & Hes & Hep)].
  split; [|split; [|split]].
  - intros Hnone t v. rewrite !Hp, Hes. f_equal.
    unfold base_match. rewrite Hnone, set_status_only. reflexivity.
  - intros Hnone t v. rewrite !Hp, Hep. f_equal.
    unfold base_match. rewrite Hnone, set_priority_only. reflexivity.
  - intros s t Hs Ht. rewrite Hp in Ht. unfold base_match in Ht.
    rewrite Hs in Ht. simpl in Ht.
    repeat (apply andb_true_iff in Ht as [Ht ?]).
    now apply JsVal_eqb_eq.
  - intros s t Hs Ht. rewrite Hp in Ht. unfold base_match in Ht.
    rewrite Hs in Ht. simpl in Ht.
    repeat (apply andb_true_iff in Ht as [Ht ?]).
    now apply JsVal_eqb_eq.
Qed.

Lemma status_priority_filter_iff_witness :
  f_status (buildFilter "alice"
              (mkQuery None None None (Some "pending") (Some "all") None None))
  = Some "pending"
  /\ f_priority (buildFilter "alice"
                   (mkQuery None None None (Some "pending") (Some "all") None
                            None))
     = None.
Proof.
  destruct (status_priority_filter_iff "alice"
              (mkQuery None None None (Some "pending") (Some "all") None None))
    as (Hs & _ & _ & Hp & _).
  split.
  - apply Hs. repeat split; discriminate.
  - apply Hp. right. right. reflexivity.
Defined.

(** ** Page and limit *)

Lemma digit_of_decimal (c : ascii) (d : Z) :
  digit_of 10 c = Some d -> is_decimal c = true.
Proof.
  destruct c as [b0 b1 b2 b3 b4 b5 b6 b7].
  destruct b0, b1, b2, b3, b4, b5, b6, b7; vm_compute; intro H;
    (reflexivity || discriminate H).
Qed.

Lemma strip_hex_prefix_other (c : ascii) (r : string) :
  is_decimal c = false -> strip_hex_prefix (String c r) = (10, String c r).
Proof.
  destruct c as [b0 b1 b2 b3 b4 b5 b6 b7].
  destruct b0, b1, b2, b3, b4, b5, b6, b7; intro H;
    try reflexivity; vm_compute in H; discriminate H.
Qed.

(** [parseInt] finds no number in a non-numeric text. *)
Lemma parseInt_non_numeric (s : string) :
  non_numeric s = true -> parseInt_string s = NaN.
Proof.
  unfold non_numeric, parseInt_string.
  destruct (strip_sign (skip_white s)) as [sign s1]. cbn [snd].
  destruct s1 as [|c r]; intro H; [reflexivity|].
  apply negb_true_iff in H.
  rewrite (strip_hex_prefix_other c r H). cbn [read_digits].
  destruct (digit_of 10 c) as [d|] eqn:E; [|reflexivity].
  apply digit_of_decimal in E. congruence.
Qed.

(** An integer up to 2^53 in size is its own double. *)
Lemma round_double_safe (v : Z) :
  safe_integer v = true -> round_double v = Fin v.
Proof. unfold safe_integer, round_double. now intros ->. Qed.

Lemma round_double_number (v : Z) : round_double v <> NaN.
Proof.
  unfold round_double.
  destruct (Z.abs v <=? two53); [discriminate|]. cbv zeta.
  destruct (2 ^ 1024 <=? _); [destruct (0 <? v)|]; discriminate.
Qed.

Lemma parseInt_string_cases (s : string) :
  parseInt_string s = NaN \/ exists v, parseInt_string s = round_double v.
Proof.
  unfold parseInt_string.
  destruct (strip_sign (skip_white s)) as [sign s1].
  destruct (strip_hex_prefix s1) as [radix s2].
  destruct (read_digits radix s2 None) as [v|]; eauto.
Qed.

(** [n || d] is a number and is not zero. *)
Lemma num_or_truthy (n : Num) (d : Z) :
  d <> 0 -> num_or n d <> NaN /\ num_or n d <> Fin 0.
Proof.
  intro Hd. unfold num_or. destruct n as [| | |z]; try (split; congruence).
  destruct (Z.eqb_spec z 0); split; congruence.
Qed.

Lemma ceil_div_finite (n : Z) (b : Num) :
  b <> NaN -> b <> Fin 0 -> is_finite (ceil_div n b) = true.
Proof.
  intros Hnan Hzero. destruct b as [| | |d]; try reflexivity.
  - contradiction.
  - simpl. destruct (Z.eqb_spec d 0); [subst; contradiction | reflexivity].
Qed.

Lemma ceil_div_Fin (n d : Z) :
  d <> 0 -> ceil_div n (Fin d) = Fin (- ((- n) / d)).
Proof.
  intro Hd. simpl. destruct (Z.eqb_spec d 0); [contradiction | reflexivity].
Qed.

(** For a positive divisor [ceil_div] is the ceiling of the quotient. *)
Lemma ceil_div_is_ceiling (n d : Z) :
  0 < d -> is_ceiling n d (- ((- n) / d)).
Proof.
  intro Hd. unfold is_ceiling.
  pose proof (Z.div_mod (- n) d ltac:(lia)) as Hdm.
  pose proof (Z.mod_pos_bound (- n) d Hd) as Hb.
  nia.
Qed.

Lemma ceiling_below_limit (n d c : Z) :
  0 <= n -> n < d -> is_ceiling n d c -> c = if 0 <? n then 1 else 0.
Proof.
  unfold is_ceiling. intros Hn Hd [Hlo Hhi].
  destruct (Z.ltb_spec 0 n); nia.
Qed.

Lemma getTasks_sent (M : StoreModel) (docs : Collection) (caller : ObjectId)
    (q : Query) (p : Task -> bool) (code : Z) (page : TaskPage) :
  matcher M (buildFilter caller q) = Some p ->
  getTasks M docs caller q = Sent code page ->
  code = 200
  /\ currentPage page = effective_page q
  /\ totalTasks page = Z.of_nat (List.length (filter p docs))
  /\ totalPages page = ceil_div (totalTasks page) (effective_limit q)
  /\ Task_find M docs (buildFilter caller q) (buildSort q)
       (num_mul (num_sub (effective_page q) 1) (effective_limit q))
       (effective_limit q)
     = Some (tasks page).
Proof.
  intros Hm. unfold getTasks, Task_countDocuments. rewrite Hm.
  destruct (Task_find _ _ _ _ _ _) as [found|]; [|discriminate].
  intro H. injection H as <- <-. repeat split.
Qed.

(** C10. A [page] or [limit] parameter that is absent, non-numeric,
    not a number for [parseInt], or parses to zero gives the default, 1
    for the page and 10 for the limit.  The limit in force is therefore
    never zero and never [NaN] (it may be an infinity, for a text of
    very many digits), [Math.ceil(total / limit)] is a finite number for
    every total, and every response of the list operation carries that
    finite number as [totalPages]. *)
Theorem page_limit_defaults_keep_totalPages_finite (q : Query) :
  (q_page q = None -> effective_page q = Fin 1)
  /\ (q_limit q = None -> effective_limit q = Fin 10)
  /\ (forall s, q_page q = Some s -> non_numeric s = true ->
                effective_page q = Fin 1)
  /\ (forall s, q_limit q = Some s -> non_numeric s = true ->
                effective_limit q = Fin 10)
  /\ (parseInt (q_page q) = NaN \/ parseInt (q_page q) = Fin 0 ->
      effective_page q = Fin 1)
  /\ (parseInt (q_limit q) = NaN \/ parseInt (q_limit q) = Fin 0 ->
      effective_limit q = Fin 10)
  /\ (effective_page q <> NaN /\ effective_page q <> Fin 0)
  /\ (effective_limit q <> NaN /\ effective_limit q <> Fin 0)
  /\ (forall n, is_finite (ceil_div n (effective_limit q)) = true)
  /\ (forall M docs caller code page,
        getTasks M docs caller q = Sent code page ->
        totalPages page = ceil_div (totalTasks page) (effective_limit q)
        /\ is_finite (totalPages page) = true).
Proof.
  assert (Hlim : effective_limit q <> NaN /\ effective_limit q <> Fin 0).
  { apply num_or_truthy. discriminate. }
  assert (Hfin : forall n, is_finite (ceil_div n (effective_limit q)) = true).
  { intro n. now apply ceil_div_finite. }
  split; [unfold effective_page; now intros ->|].
  split; [unfold effective_limit; now intros ->|].
  split.
  { unfold effective_page. intros s -> H. simpl.
    now rewrite (parseInt_non_numeric s H). }
  split.
  { unfold effective_limit. intros s -> H. simpl.
    now rewrite (parseInt_non_numeric s H). }
  split; [unfold effective_page; intros [-> | ->]; reflexivity|].
  split; [unfold effective_limit; intros [-> | ->]; reflexivity|].
  split; [apply num_or_truthy; discriminate|].
  split; [exact Hlim|].
  split; [exact Hfin|].
  intros M docs caller code page Hsent.
  assert (Htp : totalPages page
                = ceil_div (totalTasks page) (effective_limit q)).
  { unfold getTasks in Hsent.
    destruct (Task_countDocuments _ _ _); [|discriminate].
    destruct (Task_find _ _ _ _ _ _); [|discriminate].
    now injection Hsent as _ <-. }
  split; [exact Htp|]. rewrite Htp. apply Hfin.
Qed.

Lemma page_limit_defaults_keep_totalPages_finite_witness :
  effective_page (mkQuery (Some "abc") (Some "0") None None None None None)
  = Fin 1
  /\ effective_limit (mkQuery (Some "abc") (Some "0") None None None None None)
     = Fin 10
  /\ effective_limit huge_limit_query = PosInf
  /\ is_finite (ceil_div 3 (effective_limit huge_limit_query)) = true.
Proof.
  destruct (page_limit_defaults_keep_totalPages_finite
              (mkQuery (Some "abc") (Some "0") None None None None None))
    as (_ & _ & Hp & _ & _ & Hl & _).
  destruct (page_limit_defaults_keep_totalPages_finite huge_limit_query)
    as (_ & _ & _ & _ & _ & _ & _ & _ & Hfin & _).
  split; [apply (Hp "abc"); reflexivity|].
  split; [apply Hl; right; reflexivity|].
  split; [vm_compute; reflexivity | apply Hfin].
Defined.

(** ** The list response *)

(** The skip the handler computes when the page, the limit and their
    product are integers up to 2^53. *)
Lemma skip_of_safe (pg lim : Z) :
  1 <= pg -> pg <= two53 -> 0 < lim -> (pg - 1) * lim <= two53 ->
  num_mul (num_sub (Fin pg) 1) (Fin lim) = Fin ((pg - 1) * lim).
Proof.
  intros H1 H2 H3 H4. unfold num_sub.
  rewrite round_double_safe by (unfold safe_integer; apply Z.leb_le; lia).
  unfold num_mul.
  apply round_double_safe. unfold safe_integer. apply Z.leb_le. nia.
Qed.

Lemma window_of_safe (M : StoreModel) (sk lim : Z) (l : list Task) :
  0 <= sk -> sk <= two53 -> 0 < lim -> lim <= two53 ->
  window M (Fin sk) (Fin lim) l
  = Some (firstn (Z.to_nat lim) (skipn (Z.to_nat sk) l)).
Proof.
  intros H1 H2 H3 H4. unfold window, safe_integer, take_limit.
  replace (Z.abs sk <=? two53) with true by (symmetry; apply Z.leb_le; lia).
  replace (Z.abs lim <=? two53) with true by (symmetry; apply Z.leb_le; lia).
  replace (0 <=? sk) with true by (symmetry; apply Z.leb_le; lia).
  replace (lim =? 0) with false by (symmetry; apply Z.eqb_neq; lia).
  cbn [andb]. now rewrite Z.abs_eq by lia.
Qed.

(** C6 (as amended). Whenever the list operation sends a response, it
    sends status 200 with the number of matching tasks whatever the page
    and the limit, one page of matching tasks, and
    totalPages = [Math.ceil(totalTasks / limit)].  When moreover the
    limit in force is a positive integer, the page in force is an
    integer of at least 1, the page, the limit and (page - 1) * limit
    are at most 2^53, and the store accepts the sort key, a response is
    sent: its page holds at most [limit] tasks, totalPages is the
    ceiling of totalTasks / limit (1 when the limit exceeds a positive
    total, 0 when the total is zero), and a page beyond the last one is
    empty. *)
Theorem list_sends_count_page_and_totalPages (M : StoreModel)
    (docs : Collection) (caller : ObjectId) (q : Query) (p : Task -> bool) :
  matcher M (buildFilter caller q) = Some p ->
  (forall code page,
     getTasks M docs caller q = Sent code page ->
     code = 200
     /\ totalTasks page = Z.of_nat (List.length (filter p docs))
     /\ totalPages page = ceil_div (totalTasks page) (effective_limit q)
     /\ (forall t, In t (tasks page) -> In t docs /\ p t = true))
  /\ (forall pg lim,
        effective_page q = Fin pg ->
        effective_limit q = Fin lim ->
        sort_key_ok M (sortField (buildSort q)) = true ->
        0 < lim -> lim <= two53 ->
        1 <= pg -> pg <= two53 ->
        (pg - 1) * lim <= two53 ->
        exists found tp,
          getTasks M docs caller q
            = Sent 200 (mkTaskPage found (Fin pg) (Fin tp)
                          (Z.of_nat (List.length (filter p docs))))
          /\ is_ceiling (Z.of_nat (List.length (filter p docs))) lim tp
          /\ (Z.of_nat (List.length (filter p docs)) < lim ->
              tp = if 0 <? Z.of_nat (List.length (filter p docs))
                   then 1 else 0)
          /\ (tp < pg -> found = [])
          /\ found
             = firstn (Z.to_nat lim)
                 (skipn (Z.to_nat ((pg - 1) * lim))
                    (sort_tasks (buildSort q) (filter p docs)))
          /\ Z.of_nat (List.length found) <= lim).
Proof.
  intros Hm. split.
  { intros code page Hsent.
    destruct (getTasks_sent M docs caller q p code page Hm Hsent)
      as (Hc & _ & Ht & Hp & Hf).
    split; [exact Hc|]. split; [exact Ht|]. split; [exact Hp|].
    intros t Hin. exact (Task_find_sound _ _ _ _ _ _ _ _ Hf Hm t Hin). }
  intros pg lim Hpg Hlim Hk Hl0 Hl1 Hp0 Hp1 Hprod.
  set (n := Z.of_nat (List.length (filter p docs))).
  pose proof (ceil_div_is_ceiling n lim Hl0) as Hceil.
  assert (Hskip : 0 <= (pg - 1) * lim) by nia.
  assert (Hfind : Task_find M docs (buildFilter caller q) (buildSort q)
                    (num_mul (num_sub (Fin pg) 1) (Fin lim)) (Fin lim)
                  = Some (firstn (Z.to_nat lim)
                            (skipn (Z.to_nat ((pg - 1) * lim))
                               (sort_tasks (buildSort q) (filter p docs))))).
  { unfold Task_find. rewrite Hm, Hk, skip_of_safe by assumption.
    now apply window_of_safe. }
  eexists. exists (- ((- n) / lim)).
  split.
  { unfold getTasks, Task_countDocuments. rewrite Hm, Hpg, Hlim, Hfind.
    rewrite ceil_div_Fin by lia. reflexivity. }
  split; [exact Hceil|].
  split; [intro Hlt; apply (ceiling_below_limit n lim);
          [lia | lia | exact Hceil]|].
  split.
  { intro Hbeyond. rewrite skipn_all2; [apply firstn_nil|].
    rewrite sort_tasks_length. unfold is_ceiling in Hceil.
    apply Nat2Z.inj_le. rewrite Z2Nat.id by lia. fold n. nia. }
  split; [reflexivity|].
  pose proof (firstn_le_length (Z.to_nat lim)
                (skipn (Z.to_nat ((pg - 1) * lim))
                   (sort_tasks (buildSort q) (filter p docs)))). lia.
Qed.

Lemma list_sends_count_page_and_totalPages_witness :
  exists found tp,
    getTasks demo_store sample_db "alice" far_page_query
      = Sent 200 (mkTaskPage found (Fin 7) (Fin tp) 1)
    /\ tp = 1
    /\ found = [].
Proof.
  destruct (list_sends_count_page_and_totalPages demo_store sample_db "alice"
              far_page_query
              (fun t => base_match (buildFilter "alice" far_page_query) t
                        && (regex_on (fun s => contains "milk" (lowercase s))
                                     (title t)
                            || regex_on (fun s => contains "milk" (lowercase s))
                                        (description t))))
    as [_ H]; [reflexivity|].
  destruct (H 7 2) as [found [tp (Hrun & _ & Hone & Hempty & _)]];
    try reflexivity; try discriminate.
  exists found, tp. split; [exact Hrun|].
  assert (Htp : tp = 1) by (apply Hone; reflexivity).
  split; [exact Htp|]. apply Hempty. rewrite Htp. reflexivity.
Defined.

(** C6, as first stated, fails for a negative limit and for an infinite
    one.  With three tasks and [limit=-5], totalPages is
    ceil(3 / -5) = 0, so pages 1 and 2 lie beyond the last page; page 1
    comes back with the three tasks on it, and for page 2 the skip is
    -5, the store raises and no page is sent at all.  A limit of 310
    digits is an infinity: it exceeds the total of 3, and totalPages is
    ceil(3 / Infinity) = 0, not 1. *)
Lemma list_negative_limit_counterexample :
  effective_limit first_page_of_minus_five = Fin (-5)
  /\ ceil_div 3 (Fin (-5)) = Fin 0
  /\ (exists found,
        getTasks demo_store sample_db "alice" first_page_of_minus_five
          = Sent 200 (mkTaskPage found (Fin 1) (Fin 0) 3)
        /\ List.length found = 3%nat)
  /\ getTasks demo_store sample_db "alice" second_page_of_minus_five
       = Thrown 200 store_error
  /\ effective_limit huge_limit_query = PosInf
  /\ ceil_div 3 (effective_limit huge_limit_query) = Fin 0.
Proof.
  split; [reflexivity|]. split; [reflexivity|].
  split; [eexists; split; reflexivity|].
  split; [reflexivity|]. split; vm_compute; reflexivity.
Qed.

(** ** The handlers on the sample data *)

Example parseInt_decimal : parseInt (Some "25") = Fin 25.
Proof. reflexivity. Qed.

Example parseInt_prefix : parseInt (Some "  -7px") = Fin (-7).
Proof. reflexivity. Qed.

Example parseInt_hex : parseInt (Some "0x1f") = Fin 31.
Proof. reflexivity. Qed.

Example parseInt_letters : parseInt (Some "abc") = NaN.
Proof. reflexivity. Qed.

Example parseInt_absent : parseInt None = NaN.
Proof. reflexivity. Qed.

Example parseInt_rounds_to_even :
  parseInt (Some "9007199254740993") = Fin 9007199254740992
  /\ parseInt (Some "9007199254740995") = Fin 9007199254740996.
Proof. split; vm_compute; reflexivity. Qed.

Example parseInt_rounds_large :
  parseInt (Some "100000000000000000000000")
  = Fin 99999999999999991611392.
Proof. vm_compute. reflexivity. Qed.

Example parseInt_overflows :
  is_finite (parseInt (Some (nines 308))) = true
  /\ parseInt (Some (nines 309)) = PosInf
  /\ parseInt (Some (String "-"%char (nines 309))) = NegInf.
Proof. repeat split; vm_compute; reflexivity. Qed.

Example round_double_largest :
  round_double (2 ^ 1024 - 2 ^ 970 - 1) = Fin (2 ^ 1024 - 2 ^ 971)
  /\ round_double (2 ^ 1024 - 2 ^ 970) = PosInf.
Proof. split; vm_compute; reflexivity. Qed.

Example skip_of_first_page_of_infinite_limit :
  num_mul (num_sub (Fin 1) 1) PosInf = NaN.
Proof. reflexivity. Qed.

Example ceil_div_rounds_up : ceil_div 7 (Fin 3) = Fin 3.
Proof. reflexivity. Qed.

Example ceil_div_by_zero : ceil_div 3 (Fin 0) = PosInf.
Proof. reflexivity. Qed.

Example search_milk :
  option_map (fun page => map _id (tasks page))
    (match getTasks demo_store sample_db "alice"
             (mkQuery None None (Some "milk") None None None None) with
     | Sent _ page => Some page
     | Thrown _ _ => None
     end)
  = Some ["a1"].
Proof. reflexivity. Qed.

Example search_bad_pattern :
  getTasks demo_store sample_db "alice"
    (mkQuery None None (Some "(") None None None None)
  = Thrown 200 store_error.
Proof. reflexivity. Qed.

Example delete_then_get :
  getTask (fst (deleteTask sample_db "alice" "a1")) "alice" "a1"
  = Thrown 404 "Task not found".
Proof. reflexivity. Qed.

(** * Further properties of the handlers *)

(** ** Reading one task *)

(** X1. [getTask] sends a task exactly when a task with that id is
    stored and the caller owns it, and then it sends that task with
    status 200. *)
Theorem getTask_sends_iff (docs : Collection) (caller id : ObjectId)
    (code : Z) (t : Task) :
  getTask docs caller id = Sent code t
  <-> code = 200 /\ Task_findById docs id = Some t /\ user t = caller.
Proof.
  unfold getTask. split.
  - destruct (Task_findById docs id) as [task|]; [|discriminate].
    destruct (not_owner task caller) eqn:E; [discriminate|].
    intro H. injection H as <- <-.
    apply not_owner_false in E. auto.
  - intros (-> & -> & Hown). apply not_owner_false in Hown.
    now rewrite Hown.
Qed.

(** ** Lists of documents under removal and replacement *)

Lemma findById_absent (docs : Collection) (id : ObjectId) :
  ~ In id (map _id docs) -> Task_findById docs id = None.
Proof.
  unfold Task_findById. intro H.
  induction docs as [|d r IH]; simpl in *; [reflexivity|].
  destruct (oid_eqb (_id d) id) eqn:E.
  - apply oid_eqb_eq in E. tauto.
  - apply IH. tauto.
Qed.

Lemma findById_none_not_in (docs : Collection) (id : ObjectId) :
  Task_findById docs id = None -> ~ In id (map _id docs).
Proof.
  unfold Task_findById. intros H Hin.
  apply in_map_iff in Hin as [t [Hid Ht]].
  apply (find_none _ _ H) in Ht.
  assert (E : oid_eqb (_id t) id = true) by now apply oid_eqb_eq.
  congruence.
Qed.

Lemma findById_app (docs extra : Collection) (id : ObjectId) (t : Task) :
  Task_findById docs id = Some t -> Task_findById (docs ++ extra) id = Some t.
Proof.
  unfold Task_findById. intro H.
  induction docs as [|d r IH]; simpl in *; [discriminate|].
  destruct (oid_eqb (_id d) id); [assumption | now apply IH].
Qed.

Lemma findById_app_fresh (docs extra : Collection) (id : ObjectId) :
  Task_findById docs id = None ->
  Task_findById (docs ++ extra) id = Task_findById extra id.
Proof.
  unfold Task_findById. intro H.
  induction docs as [|d r IH]; simpl in *; [reflexivity|].
  destruct (oid_eqb (_id d) id); [discriminate | now apply IH].
Qed.

Lemma remove_by_id_perm (docs : Collection) (id : ObjectId) (t : Task) :
  Task_findById docs id = Some t ->
  Permutation docs (t :: remove_by_id id docs).
Proof.
  unfold Task_findById.
  induction docs as [|d r IH]; simpl; intro H; [discriminate|].
  destruct (oid_eqb (_id d) id).
  - injection H as ->. reflexivity.
  - rewrite (IH H) at 1. apply perm_swap.
Qed.

Lemma remove_by_id_other (docs : Collection) (id id' : ObjectId) :
  id' <> id ->
  Task_findById (remove_by_id id docs) id' = Task_findById docs id'.
Proof.
  unfold Task_findById. intro Hne.
  induction docs as [|d r IH]; simpl; [reflexivity|].
  destruct (oid_eqb (_id d) id) eqn:E; simpl.
  - apply oid_eqb_eq in E.
    destruct (oid_eqb (_id d) id') eqn:E'; [|reflexivity].
    apply oid_eqb_eq in E'. congruence.
  - destruct (oid_eqb (_id d) id'); [reflexivity | exact IH].
Qed.

Lemma remove_by_id_gone (docs : Collection) (id : ObjectId) :
  unique_ids docs -> Task_findById (remove_by_id id docs) id = None.
Proof.
  unfold unique_ids.
  induction docs as [|d r IH]; simpl; intro H; [reflexivity|].
  apply NoDup_cons_iff in H as [Hnot Hr].
  destruct (oid_eqb (_id d) id) eqn:E.
  - apply oid_eqb_eq in E. subst id. now apply findById_absent.
  - unfold Task_findById in *. simpl. rewrite E. now apply IH.
Qed.

Lemma remove_by_id_ids_incl (docs : Collection) (id x : ObjectId) :
  In x (map _id (remove_by_id id docs)) -> In x (map _id docs).
Proof.
  induction docs as [|d r IH]; simpl; [easy|].
  destruct (oid_eqb (_id d) id); simpl; tauto.
Qed.

Lemma remove_by_id_unique (docs : Collection) (id : ObjectId) :
  unique_ids docs -> unique_ids (remove_by_id id docs).
Proof.
  unfold unique_ids.
  induction docs as [|d r IH]; simpl; intro H; [assumption|].
  apply NoDup_cons_iff in H as [Hnot Hr].
  destruct (oid_eqb (_id d) id); [assumption|]. simpl.
  apply NoDup_cons; [|now apply IH].
  intro Hin. apply Hnot. eapply remove_by_id_ids_incl; eassumption.
Qed.

Lemma replace_by_id_other (docs : Collection) (id id' : ObjectId) (t' : Task) :
  _id t' = id -> id' <> id ->
  Task_findById (replace_by_id id t' docs) id' = Task_findById docs id'.
Proof.
  unfold Task_findById. intros Hid Hne.
  induction docs as [|d r IH]; simpl; [reflexivity|].
  destruct (oid_eqb (_id d) id) eqn:E; simpl.
  - apply oid_eqb_eq in E.
    destruct (oid_eqb (_id t') id') eqn:E1.
    { apply oid_eqb_eq in E1. congruence. }
    destruct (oid_eqb (_id d) id') eqn:E2; [|reflexivity].
    apply oid_eqb_eq in E2. congruence.
  - destruct (oid_eqb (_id d) id'); [reflexivity | exact IH].
Qed.

(** Replacing a document by one that agrees with it under [f] keeps
    [map f]. *)
Lemma replace_by_id_map {B} (f : Task -> B) (docs : Collection)
    (id : ObjectId) (t t' : Task) :
  Task_findById docs id = Some t -> f t' = f t ->
  map f (replace_by_id id t' docs) = map f docs.
Proof.
  unfold Task_findById. intros H Hf.
  induction docs as [|d r IH]; simpl in *; [reflexivity|].
  destruct (oid_eqb (_id d) id); simpl.
  - injection H as ->. now rewrite Hf.
  - f_equal. now apply IH.
Qed.

Lemma replace_by_id_absent (docs : Collection) (id : ObjectId) (t' : Task) :
  Task_findById docs id = None -> replace_by_id id t' docs = docs.
Proof.
  unfold Task_findById.
  induction docs as [|d r IH]; simpl; intro H; [reflexivity|].
  destruct (oid_eqb (_id d) id); [discriminate|]. f_equal. now apply IH.
Qed.

Lemma replace_by_id_twice (docs : Collection) (id : ObjectId) (t1 t2 : Task) :
  _id t1 = id ->
  replace_by_id id t2 (replace_by_id id t1 docs) = replace_by_id id t2 docs.
Proof.
  intro Hid.
  induction docs as [|d r IH]; simpl; [reflexivity|].
  destruct (oid_eqb (_id d) id) eqn:E; simpl.
  - assert (E1 : oid_eqb (_id t1) id = true) by now apply oid_eqb_eq.
    now rewrite E1.
  - rewrite E. f_equal. exact IH.
Qed.

(** Counting under a replacement: the replaced document leaves the
    count and its replacement enters it. *)
Lemma replace_by_id_count (f : Task -> bool) (docs : Collection)
    (id : ObjectId) (t t' : Task) :
  Task_findById docs id = Some t ->
  Z.of_nat (List.length (filter f (replace_by_id id t' docs)))
  + Z.b2z (f t)
  = Z.of_nat (List.length (filter f docs)) + Z.b2z (f t').
Proof.
  unfold Task_findById.
  induction docs as [|d r IH]; simpl; intro H; [discriminate|].
  destruct (oid_eqb (_id d) id); simpl.
  - injection H as ->.
    destruct (f t), (f t'); simpl List.length; simpl Z.b2z; lia.
  - specialize (IH H).
    destruct (f d); simpl List.length; lia.
Qed.

Lemma remove_by_id_count (f : Task -> bool) (docs : Collection)
    (id : ObjectId) (t : Task) :
  Task_findById docs id = Some t ->
  Z.of_nat (List.length (filter f (remove_by_id id docs))) + Z.b2z (f t)
  = Z.of_nat (List.length (filter f docs)).
Proof.
  unfold Task_findById.
  induction docs as [|d r IH]; simpl; intro H; [discriminate|].
  destruct (oid_eqb (_id d) id); simpl.
  - injection H as ->. destruct (f t); simpl List.length; simpl Z.b2z; lia.
  - specialize (IH H). destruct (f d); simpl List.length; lia.
Qed.

Lemma replace_by_id_others (docs : Collection) (caller id : ObjectId)
    (t t' : Task) :
  Task_findById docs id = Some t -> user t = caller -> user t' = caller ->
  tasks_of_others caller (replace_by_id id t' docs)
  = tasks_of_others caller docs.
Proof.
  unfold Task_findById, tasks_of_others, owned_by. intros H Hu Hu'.
  induction docs as [|d r IH]; simpl in *; [reflexivity|].
  destruct (oid_eqb (_id d) id); simpl.
  - injection H as ->.
    assert (E : oid_eqb (user t) caller = true) by now apply oid_eqb_eq.
    assert (E' : oid_eqb (user t') caller = true) by now apply oid_eqb_eq.
    now rewrite E, E'.
  - rewrite (IH H). reflexivity.
Qed.

Lemma remove_by_id_others (docs : Collection) (caller id : ObjectId)
    (t : Task) :
  Task_findById docs id = Some t -> user t = caller ->
  tasks_of_others caller (remove_by_id id docs) = tasks_of_others caller docs.
Proof.
  unfold Task_findById, tasks_of_others, owned_by. intros H Hu.
  induction docs as [|d r IH]; simpl in *; [reflexivity|].
  destruct (oid_eqb (_id d) id); simpl.
  - injection H as ->.
    assert (E : oid_eqb (user t) caller = true) by now apply oid_eqb_eq.
    now rewrite E.
  - rewrite (IH H). reflexivity.
Qed.

(** ** Delete *)

(** X2. A delete by the owner removes that one task and nothing else:
    the stored documents are the old ones without it, one fewer, every
    other id is found as before, and "Task removed" is sent with status
    200. *)
Theorem delete_removes_exactly_that_task (docs : Collection)
    (caller id : ObjectId) (task : Task) :
  Task_findById docs id = Some task ->
  user task = caller ->
  exists docs',
    deleteTask docs caller id = (docs', Sent 200 "Task removed")
    /\ Permutation docs (task :: docs')
    /\ List.length docs = S (List.length docs')
    /\ (forall id', id' <> id ->
                    Task_findById docs' id' = Task_findById docs id').
Proof.
  intros Hfind Hown. exists (remove_by_id id docs).
  pose proof (remove_by_id_perm docs id task Hfind) as Hperm.
  split.
  - unfold deleteTask, Task_findByIdAndDelete. rewrite Hfind.
    apply not_owner_false in Hown. now rewrite Hown.
  - split; [exact Hperm|]. split.
    + apply Permutation_length in Hperm. exact Hperm.
    + intros id' Hne. now apply remove_by_id_other.
Qed.

Lemma delete_removes_exactly_that_task_witness :
  exists docs',
    deleteTask sample_db "alice" "a2" = (docs', Sent 200 "Task removed")
    /\ List.length sample_db = S (List.length docs')
    /\ Task_findById docs' "a3" = Some read_book.
Proof.
  destruct (delete_removes_exactly_that_task sample_db "alice" "a2" walk_dog)
    as [docs' (Hrun & _ & Hlen & Hother)]; [reflexivity | reflexivity |].
  exists docs'. split; [exact Hrun|]. split; [exact Hlen|].
  rewrite Hother; [reflexivity | discriminate].
Defined.

(** X3. When ids are unique in the collection, a task deleted by its
    owner is gone: get, update, delete and toggle on its id all throw
    "Task not found" with status 404 afterwards, for every caller; and
    ids are still unique. *)
Theorem deleted_task_is_not_found (M : StoreModel) (docs : Collection)
    (caller anyone id : ObjectId) (task : Task) (body : JsObject) (now : Z) :
  unique_ids docs ->
  Task_findById docs id = Some task ->
  user task = caller ->
  unique_ids (fst (deleteTask docs caller id))
  /\ getTask (fst (deleteTask docs caller id)) anyone id
       = Thrown 404 "Task not found"
  /\ snd (updateTask M (fst (deleteTask docs caller id)) anyone id body now)
       = Thrown 404 "Task not found"
  /\ snd (deleteTask (fst (deleteTask docs caller id)) anyone id)
       = Thrown 404 "Task not found"
  /\ snd (toggleTaskStatus (fst (deleteTask docs caller id)) anyone id now)
       = Thrown 404 "Task not found".
Proof.
  intros Huniq Hfind Hown.
  assert (Hdel : fst (deleteTask docs caller id) = remove_by_id id docs).
  { unfold deleteTask, Task_findByIdAndDelete. rewrite Hfind.
    apply not_owner_false in Hown. now rewrite Hown. }
  rewrite Hdel.
  pose proof (remove_by_id_gone docs id Huniq) as Hgone.
  split; [now apply remove_by_id_unique|].
  unfold getTask, updateTask, deleteTask, toggleTaskStatus.
  rewrite Hgone. repeat split.
Qed.

Lemma deleted_task_is_not_found_witness :
  getTask (fst (deleteTask sample_db "alice" "a1")) "alice" "a1"
    = Thrown 404 "Task not found"
  /\ snd (toggleTaskStatus (fst (deleteTask sample_db "alice" "a1"))
                           "alice" "a1" 500)
     = Thrown 404 "Task not found".
Proof.
  destruct (deleted_task_is_not_found demo_store sample_db "alice" "alice"
              "a1" buy_milk [] 500) as (_ & Hget & _ & _ & Htoggle).
  - unfold unique_ids. simpl.
    repeat (apply NoDup_cons;
            [simpl; intuition discriminate|]).
    apply NoDup_nil.
  - reflexivity.
  - reflexivity.
  - split; assumption.
Defined.

(** ** Create *)

Lemma createTask_cases (M : StoreModel) (docs : Collection)
    (caller : ObjectId) (body : JsObject) (now : Z) (newId : ObjectId) :
  (fst (createTask M docs caller body now newId) = docs
   /\ exists code msg,
        snd (createTask M docs caller body now newId) = Thrown code msg)
  \/ (exists task,
        createTask M docs caller body now newId
          = (docs ++ [task], Sent 201 task)
        /\ task = new_document newId caller now (get "title" body)
                    (get "description" body) (get "priority" body)
                    (get "dueDate" body)
        /\ truthy (get "title" body) = true
        /\ validate M task = true).
Proof.
  unfold createTask, Task_create.
  destruct (truthy (get "title" body)) eqn:Et; simpl.
  - destruct (validate M _) eqn:Ev.
    + right. eexists. repeat split. exact Ev.
    + left. split; [reflexivity|]. do 2 eexists. reflexivity.
  - left. split; [reflexivity|]. do 2 eexists. reflexivity.
Qed.

(** X4. Create then read: when the new id is not yet in use, the task a
    successful create sends is the one the caller reads back under that
    id, another caller is refused with status 401, and unique ids stay
    unique. *)
Theorem created_task_is_read_back (M : StoreModel) (docs docs' : Collection)
    (caller : ObjectId) (body : JsObject) (now : Z) (newId : ObjectId)
    (code : Z) (task : Task) :
  Task_findById docs newId = None ->
  createTask M docs caller body now newId = (docs', Sent code task) ->
  getTask docs' caller newId = Sent 200 task
  /\ (forall other, other <> caller ->
        getTask docs' other newId
          = Thrown 401 "Not authorized to access this task")
  /\ (unique_ids docs -> unique_ids docs').
Proof.
  intros Hfresh Hrun.
  destruct (createTask_cases M docs caller body now newId)
    as [[_ (c & m & Hthrown)] | (t & Hok & Hdoc & _)].
  { rewrite Hrun in Hthrown. discriminate. }
  rewrite Hok in Hrun. injection Hrun as <- _ <-.
  assert (Hfind : Task_findById (docs ++ [t]) newId = Some t).
  { rewrite findById_app_fresh by assumption.
    unfold Task_findById. simpl. subst t. simpl.
    assert (E : oid_eqb newId newId = true) by now apply oid_eqb_eq.
    now rewrite E. }
  assert (Huser : user t = caller) by now subst t.
  split; [|split].
  - unfold getTask. rewrite Hfind.
    apply not_owner_false in Huser. now rewrite Huser.
  - intros other Hne. unfold getTask. rewrite Hfind.
    assert (E : not_owner t other = true).
    { apply not_owner_true. congruence. }
    now rewrite E.
  - unfold unique_ids. rewrite map_app. simpl. intro Hu.
    apply (Permutation_NoDup (Permutation_cons_append _ _)).
    apply NoDup_cons; [|exact Hu].
    subst t. simpl. now apply findById_none_not_in.
Qed.

Lemma created_task_is_read_back_witness :
  exists docs' task,
    createTask demo_store sample_db "bob" [("title", JStr "Feed cat")] 500 "b2"
      = (docs', Sent 201 task)
    /\ getTask docs' "bob" "b2" = Sent 200 task
    /\ getTask docs' "alice" "b2"
       = Thrown 401 "Not authorized to access this task".
Proof.
  eexists. eexists. split; [reflexivity|].
  destruct (created_task_is_read_back demo_store sample_db _ "bob"
              [("title", JStr "Feed cat")] 500 "b2" 201 _
              eq_refl eq_refl) as (Hget & Hother & _).
  split; [exact Hget|]. apply Hother. discriminate.
Defined.

(** X5. Create never alters or hides a stored task: the collection
    after the call is the old one, or the old one followed by one new
    task owned by the caller, and every id that was found is found with
    the same task afterwards, also when the new id is already in use. *)
Theorem create_keeps_stored_tasks (M : StoreModel) (docs : Collection)
    (caller : ObjectId) (body : JsObject) (now : Z) (newId : ObjectId) :
  (fst (createTask M docs caller body now newId) = docs
   \/ exists task,
        fst (createTask M docs caller body now newId) = docs ++ [task]
        /\ user task = caller /\ _id task = newId)
  /\ (forall id t,
        Task_findById docs id = Some t ->
        Task_findById (fst (createTask M docs caller body now newId)) id
          = Some t).
Proof.
  destruct (createTask_cases M docs caller body now newId)
    as [[Hsame _] | (t & Hok & Hdoc & _)].
  - rewrite Hsame. split; [now left | auto].
  - rewrite Hok. cbn [fst]. split.
    + right. exists t. subst t. repeat split.
    + intros id t0 Hfind. now apply findById_app.
Qed.

Lemma create_keeps_stored_tasks_witness :
  Task_findById
    (fst (createTask demo_store sample_db "bob" [("title", JStr "Twin")]
                     500 "a1")) "a1"
  = Some buy_milk.
Proof.
  destruct (create_keeps_stored_tasks demo_store sample_db "bob"
              [("title", JStr "Twin")] 500 "a1") as [_ H].
  apply H. reflexivity.
Defined.

(** ** What a caller can touch *)

Lemma tasks_of_others_app (caller : ObjectId) (docs : Collection) (t : Task) :
  user t = caller ->
  tasks_of_others caller (docs ++ [t]) = tasks_of_others caller docs.
Proof.
  intro Hu. unfold tasks_of_others, owned_by. rewrite filter_app. simpl.
  assert (E : oid_eqb (user t) caller = true) by now apply oid_eqb_eq.
  rewrite E. simpl. apply app_nil_r.
Qed.

Lemma createTask_keeps_others (M : StoreModel) (docs : Collection)
    (caller : ObjectId) (body : JsObject) (now : Z) (newId : ObjectId) :
  tasks_of_others caller (fst (createTask M docs caller body now newId))
  = tasks_of_others caller docs.
Proof.
  destruct (createTask_cases M docs caller body now newId)
    as [[Hsame _] | (t & Hok & Hdoc & _)].
  - now rewrite Hsame.
  - rewrite Hok. cbn [fst]. apply tasks_of_others_app. now subst t.
Qed.

Lemma updateTask_keeps_others (M : StoreModel) (docs : Collection)
    (caller id : ObjectId) (body : JsObject) (now : Z) :
  tasks_of_others caller (fst (updateTask M docs caller id body now))
  = tasks_of_others caller docs.
Proof.
  unfold updateTask, Task_findByIdAndUpdate.
  destruct (Task_findById docs id) as [task|] eqn:Hfind; [|reflexivity].
  destruct (not_owner task caller) eqn:Hown; [reflexivity|].
  destruct (validate M _); [|reflexivity]. cbn [fst].
  apply not_owner_false in Hown.
  apply replace_by_id_others with (t := task); assumption.
Qed.

Lemma deleteTask_keeps_others (docs : Collection) (caller id : ObjectId) :
  tasks_of_others caller (fst (deleteTask docs caller id))
  = tasks_of_others caller docs.
Proof.
  unfold deleteTask, Task_findByIdAndDelete.
  destruct (Task_findById docs id) as [task|] eqn:Hfind; [|reflexivity].
  destruct (not_owner task caller) eqn:Hown; [reflexivity|]. cbn [fst].
  apply not_owner_false in Hown.
  now apply remove_by_id_others with (t := task).
Qed.

Lemma toggleTaskStatus_keeps_others (docs : Collection)
    (caller id : ObjectId) (now : Z) :
  tasks_of_others caller (fst (toggleTaskStatus docs caller id now))
  = tasks_of_others caller docs.
Proof.
  unfold toggleTaskStatus, Task_save.
  destruct (Task_findById docs id) as [task|] eqn:Hfind; [|reflexivity].
  destruct (not_owner task caller) eqn:Hown; [reflexivity|]. cbn [fst].
  apply not_owner_false in Hown. rewrite toggled_id.
  rewrite (findById_id _ _ _ Hfind).
  now apply replace_by_id_others with (t := task).
Qed.

(** X6. Whatever a caller asks of the four mutating handlers, with
    whatever id and body, the tasks owned by anyone else are stored
    afterwards exactly as before, in the same order. *)
Theorem mutations_leave_tasks_of_others (M : StoreModel) (docs : Collection)
    (caller id : ObjectId) (body : JsObject) (now : Z) (newId : ObjectId) :
  tasks_of_others caller (fst (createTask M docs caller body now newId))
    = tasks_of_others caller docs
  /\ tasks_of_others caller (fst (updateTask M docs caller id body now))
     = tasks_of_others caller docs
  /\ tasks_of_others caller (fst (deleteTask docs caller id))
     = tasks_of_others caller docs
  /\ tasks_of_others caller (fst (toggleTaskStatus docs caller id now))
     = tasks_of_others caller docs.
Proof.
  split; [apply createTask_keeps_others|].
  split; [apply updateTask_keeps_others|].
  split; [apply deleteTask_keeps_others | apply toggleTaskStatus_keeps_others].
Qed.

(** ** More on update *)

Lemma updateTask_sent (M : StoreModel) (docs docs' : Collection)
    (caller id : ObjectId) (body : JsObject) (now code : Z)
    (r : option Task) :
  updateTask M docs caller id body now = (docs', Sent code r) ->
  exists task,
    Task_findById docs id = Some task
    /\ user task = caller
    /\ validate M (apply_update (update_document task body now) task) = true
    /\ docs' = replace_by_id id
                 (apply_update (update_document task body now) task) docs
    /\ code = 200
    /\ r = Some (apply_update (update_document task body now) task).
Proof.
  unfold updateTask, Task_findByIdAndUpdate.
  destruct (Task_findById docs id) as [task|]; [|discriminate].
  destruct (not_owner task caller) eqn:Hown; [discriminate|].
  destruct (validate M _) eqn:Hv; [|discriminate].
  intro H. injection H as <- <- <-.
  apply not_owner_false in Hown. exists task. repeat split; assumption.
Qed.

Lemma js_or_idem (a b : JsVal) : js_or a (js_or a b) = js_or a b.
Proof. unfold js_or. destruct (truthy a); reflexivity. Qed.

Lemma truthy_js_or (a b : JsVal) :
  truthy (js_or a b) = truthy a || truthy b.
Proof. unfold js_or. destruct (truthy a) eqn:E; [exact E | reflexivity]. Qed.

(** Updating again with the same body rewrites the same values. *)
Lemma update_document_again (task : Task) (body : JsObject) (now now2 : Z) :
  apply_update
    (update_document (apply_update (update_document task body now) task)
       body now2)
    (apply_update (update_document task body now) task)
  = set_field "updatedAt" (JNum now2)
      (apply_update (update_document task body now) task).
Proof.
  rewrite !apply_update_document. cbn -[get js_or is_defined].
  rewrite !js_or_idem.
  destruct (is_defined (get "description" body)),
           (is_defined (get "dueDate" body)); reflexivity.
Qed.

(** X7. Update is idempotent up to the time stamp: sending the same
    body again for the same task stores and sends the task the first
    update sent, with only [updatedAt] set anew; with the same clock
    reading the collection is not changed at all. *)
Theorem repeated_update_changes_only_updatedAt (M : StoreModel)
    (docs docs' : Collection) (caller id : ObjectId) (body : JsObject)
    (now now2 : Z) (t' : Task) :
  updateTask M docs caller id body now = (docs', Sent 200 (Some t')) ->
  validate M (set_field "updatedAt" (JNum now2) t') = true ->
  updateTask M docs' caller id body now2
    = (replace_by_id id (set_field "updatedAt" (JNum now2) t') docs',
       Sent 200 (Some (set_field "updatedAt" (JNum now2) t')))
  /\ (now2 = now ->
      updateTask M docs' caller id body now2 = (docs', Sent 200 (Some t'))).
Proof.
  intros Hrun Hvalid.
  destruct (updateTask_sent _ _ _ _ _ _ _ _ _ Hrun)
    as (task & Hfind & Hown & Hv & Hdocs & _ & Ht0).
  assert (Ht : t' = apply_update (update_document task body now) task)
    by (injection Ht0 as Ht0; exact Ht0).
  clear Ht0.
  assert (Hid : _id t' = id).
  { subst t'. rewrite apply_update_document. simpl.
    eapply findById_id; eassumption. }
  assert (Hfind' : Task_findById docs' id = Some t').
  { subst docs'. rewrite <- Ht.
    now apply findById_replace with (t := task). }
  assert (Hown' : not_owner t' caller = false).
  { apply not_owner_false. subst t'. rewrite apply_update_document. exact Hown. }
  assert (Hagain : apply_update (update_document t' body now2) t'
                   = set_field "updatedAt" (JNum now2) t').
  { subst t'. apply update_document_again. }
  assert (Hfirst : updateTask M docs' caller id body now2
            = (replace_by_id id (set_field "updatedAt" (JNum now2) t') docs',
               Sent 200 (Some (set_field "updatedAt" (JNum now2) t')))).
  { unfold updateTask, Task_findByIdAndUpdate.
    rewrite Hfind', Hown', Hagain, Hvalid. reflexivity. }
  split; [exact Hfirst|].
  intros ->. rewrite Hfirst.
  assert (Hsame : set_field "updatedAt" (JNum now) t' = t').
  { subst t'. rewrite apply_update_document. reflexivity. }
  rewrite Hsame. f_equal.
  rewrite Hdocs, <- Ht. rewrite replace_by_id_twice by exact Hid.
  reflexivity.
Qed.

Lemma repeated_update_changes_only_updatedAt_witness :
  exists docs' t',
    updateTask demo_store sample_db "alice" "a1"
               [("title", JStr "Buy oat milk"); ("dueDate", JNull)] 500
      = (docs', Sent 200 (Some t'))
    /\ updateTask demo_store docs' "alice" "a1"
                  [("title", JStr "Buy oat milk"); ("dueDate", JNull)] 500
       = (docs', Sent 200 (Some t')).
Proof.
  eexists. eexists. split; [reflexivity|].
  apply (repeated_update_changes_only_updatedAt demo_store sample_db _
           "alice" "a1" [("title", JStr "Buy oat milk"); ("dueDate", JNull)]
           500 500 _ eq_refl); reflexivity.
Defined.

(** X8. An update cannot blank the title, the status or the priority:
    after a successful update each of them is truthy when the body gave
    a truthy value or the stored value was truthy, so a stored title
    that is not empty never becomes empty. *)
Theorem update_never_blanks (M : StoreModel) (docs docs' : Collection)
    (caller id : ObjectId) (body : JsObject) (now code : Z)
    (task t' : Task) :
  Task_findById docs id = Some task ->
  updateTask M docs caller id body now = (docs', Sent code (Some t')) ->
  truthy (title t') = truthy (get "title" body) || truthy (title task)
  /\ truthy (status t') = truthy (get "status" body) || truthy (status task)
  /\ truthy (priority t')
     = truthy (get "priority" body) || truthy (priority task)
  /\ (truthy (title task) = true -> truthy (title t') = true)
  /\ (truthy (status task) = true -> truthy (status t') = true)
  /\ (truthy (priority task) = true -> truthy (priority t') = true).
Proof.
  intros Hfind Hrun.
  destruct (updateTask_sent _ _ _ _ _ _ _ _ _ Hrun)
    as (task0 & Hfind0 & _ & _ & _ & _ & Ht).
  rewrite Hfind in Hfind0. injection Hfind0 as <-.
  assert (Ht' : t' = apply_update (update_document task body now) task)
    by (injection Ht as Ht; exact Ht).
  rewrite Ht', apply_update_document. cbn [title status priority].
  rewrite !truthy_js_or.
  repeat split; intros ->; apply orb_true_r.
Qed.

Lemma update_never_blanks_witness :
  exists docs' t',
    updateTask demo_store sample_db "alice" "a1"
               [("title", JStr ""); ("status", JNull); ("priority", JNum 0)]
               500
      = (docs', Sent 200 (Some t'))
    /\ truthy (title t') = true
    /\ truthy (status t') = true
    /\ truthy (priority t') = true.
Proof.
  eexists. eexists. split; [reflexivity|].
  destruct (update_never_blanks demo_store sample_db _ "alice" "a1"
              [("title", JStr ""); ("status", JNull); ("priority", JNum 0)]
              500 200 buy_milk _ eq_refl eq_refl)
    as (_ & _ & _ & Ht & Hs & Hp).
  split; [apply Ht; reflexivity|].
  split; [apply Hs; reflexivity | apply Hp; reflexivity].
Defined.

(** X9. An update touches one task only and never its id or its
    creation time: the ids and the creation times of the stored tasks
    are the same, place by place, after the call, and every other id is
    found with the same task as before. *)
Theorem update_touches_one_task (M : StoreModel) (docs : Collection)
    (caller id : ObjectId) (body : JsObject) (now : Z) :
  map _id (fst (updateTask M docs caller id body now)) = map _id docs
  /\ map createdAt (fst (updateTask M docs caller id body now))
     = map createdAt docs
  /\ (forall id', id' <> id ->
        Task_findById (fst (updateTask M docs caller id body now)) id'
        = Task_findById docs id').
Proof.
  unfold updateTask, Task_findByIdAndUpdate.
  destruct (Task_findById docs id) as [task|] eqn:Hfind; [|now repeat split].
  destruct (not_owner task caller); [now repeat split|].
  destruct (validate M _); [|now repeat split]. cbn [fst].
  split; [|split].
  - apply replace_by_id_map with (t := task); [assumption|].
    now rewrite apply_update_document.
  - apply replace_by_id_map with (t := task); [assumption|].
    now rewrite apply_update_document.
  - intros id' Hne. apply replace_by_id_other; [|assumption].
    rewrite apply_update_document. simpl. eapply findById_id; eassumption.
Qed.

Lemma update_touches_one_task_witness :
  Task_findById
    (fst (updateTask demo_store sample_db "alice" "a1"
                     [("title", JStr "Buy oat milk")] 500)) "a2"
  = Some walk_dog.
Proof.
  destruct (update_touches_one_task demo_store sample_db "alice" "a1"
              [("title", JStr "Buy oat milk")] 500) as (_ & _ & H).
  rewrite H; [reflexivity | discriminate].
Defined.

(** ** More on toggle *)

(** X10. A toggle by the owner always leaves the status pending or
    completed: a pending task becomes completed, and a task with any
    other status, one outside the enum included, becomes pending. *)
Theorem toggle_lands_in_enum (docs : Collection) (caller id : ObjectId)
    (now : Z) (task : Task) :
  Task_findById docs id = Some task ->
  user task = caller ->
  exists docs' t',
    toggleTaskStatus docs caller id now = (docs', Sent 200 t')
    /\ Task_findById docs' id = Some t'
    /\ (status t' = JStr "pending" \/ status t' = JStr "completed")
    /\ (status task = JStr "pending" -> status t' = JStr "completed")
    /\ (status task <> JStr "pending" -> status t' = JStr "pending").
Proof.
  intros Hfind Hown.
  destruct (toggleTaskStatus_owner docs caller id now task Hfind Hown)
    as [Hrun Hfind'].
  do 2 eexists. split; [exact Hrun|]. split; [exact Hfind'|].
  unfold toggled. cbn [status].
  destruct (strict_eq_str (status task) "pending") eqn:E.
  - apply JsVal_eqb_eq in E. split; [now right|]. split; [reflexivity|].
    intro Hne. contradiction.
  - split; [now left|]. split; [|reflexivity].
    intro Heq. rewrite Heq in E. discriminate.
Qed.

Lemma toggle_lands_in_enum_witness :
  exists docs' t',
    toggleTaskStatus
      [mkTask "c1" "carol" (JStr "Old") JUndefined (JStr "archived")
              JUndefined JUndefined 10 10] "carol" "c1" 500
      = (docs', Sent 200 t')
    /\ status t' = JStr "pending".
Proof.
  destruct (toggle_lands_in_enum
              [mkTask "c1" "carol" (JStr "Old") JUndefined (JStr "archived")
                      JUndefined JUndefined 10 10] "carol" "c1" 500
              (mkTask "c1" "carol" (JStr "Old") JUndefined (JStr "archived")
                      JUndefined JUndefined 10 10) eq_refl eq_refl)
    as (docs' & t' & Hrun & _ & _ & _ & Hother).
  exists docs', t'. split; [exact Hrun|]. apply Hother. discriminate.
Defined.

(** X11. Two toggles bring the status back exactly when it was pending
    or completed to begin with; three toggles always leave the status
    that one toggle leaves. *)
Theorem two_toggles_restore_iff_enum (docs : Collection)
    (caller id : ObjectId) (n1 n2 n3 : Z) (task : Task) :
  Task_findById docs id = Some task ->
  user task = caller ->
  exists t1 t2 t3,
    snd (toggleTaskStatus docs caller id n1) = Sent 200 t1
    /\ snd (toggleTaskStatus (fst (toggleTaskStatus docs caller id n1))
                             caller id n2) = Sent 200 t2
    /\ snd (toggleTaskStatus
              (fst (toggleTaskStatus
                      (fst (toggleTaskStatus docs caller id n1))
                      caller id n2))
              caller id n3) = Sent 200 t3
    /\ (status t2 = status task
        <-> status task = JStr "pending" \/ status task = JStr "completed")
    /\ status t3 = status t1.
Proof.
  intros Hfind Hown.
  destruct (toggleTaskStatus_owner docs caller id n1 task Hfind Hown)
    as [Hrun1 Hfind1].
  destruct (toggleTaskStatus_owner _ caller id n2 _ Hfind1 Hown)
    as [Hrun2 Hfind2].
  destruct (toggleTaskStatus_owner _ caller id n3 _ Hfind2 Hown)
    as [Hrun3 _].
  exists (toggled task n1), (toggled (toggled task n1) n2),
         (toggled (toggled (toggled task n1) n2) n3).
  rewrite Hrun1. cbn [fst snd]. rewrite Hrun2. cbn [fst snd]. rewrite Hrun3.
  cbn [fst snd]. split; [reflexivity|]. split; [reflexivity|].
  split; [reflexivity|].
  unfold toggled. cbn [status].
  destruct (strict_eq_str (status task) "pending") eqn:E.
  - apply JsVal_eqb_eq in E. rewrite E. cbn. split; [split; auto | reflexivity].
  - cbn. split; [|reflexivity]. split.
    + intro H. now right.
    + intros [H|H]; [rewrite H in E; discriminate | now symmetry].
Qed.

Lemma two_toggles_restore_iff_enum_witness :
  exists t1 t2 t3,
    snd (toggleTaskStatus sample_db "alice" "a2" 500) = Sent 200 t1
    /\ snd (toggleTaskStatus (fst (toggleTaskStatus sample_db "alice" "a2" 500))
                             "alice" "a2" 600) = Sent 200 t2
    /\ snd (toggleTaskStatus
              (fst (toggleTaskStatus
                      (fst (toggleTaskStatus sample_db "alice" "a2" 500))
                      "alice" "a2" 600))
              "alice" "a2" 700) = Sent 200 t3
    /\ status t2 = status walk_dog
    /\ status t3 = status t1.
Proof.
  destruct (two_toggles_restore_iff_enum sample_db "alice" "a2" 500 600 700
              walk_dog eq_refl eq_refl)
    as (t1 & t2 & t3 & H1 & H2 & H3 & Hiff & H31).
  exists t1, t2, t3. repeat (split; [assumption|]).
  split; [|exact H31]. apply Hiff. right. reflexivity.
Defined.

(** X12. A toggle changes nothing but the status and [updatedAt] of
    the one task: all other fields of every stored task are the same,
    place by place, after the call, and every other id is found with the
    same task as before. *)
Theorem toggle_touches_status_and_updatedAt_only (docs : Collection)
    (caller id : ObjectId) (now : Z) :
  map (fun t => (_id t, user t, title t, description t, priority t,
                 dueDate t, createdAt t))
      (fst (toggleTaskStatus docs caller id now))
  = map (fun t => (_id t, user t, title t, description t, priority t,
                   dueDate t, createdAt t)) docs
  /\ (forall id', id' <> id ->
        Task_findById (fst (toggleTaskStatus docs caller id now)) id'
        = Task_findById docs id').
Proof.
  unfold toggleTaskStatus, Task_save.
  destruct (Task_findById docs id) as [task|] eqn:Hfind; [|now split].
  destruct (not_owner task caller); [now split|]. cbn [fst].
  rewrite toggled_id, (findById_id _ _ _ Hfind). split.
  - now apply replace_by_id_map with (t := task).
  - intros id' Hne. apply replace_by_id_other; [|assumption].
    rewrite toggled_id. eapply findById_id; eassumption.
Qed.

Lemma toggle_touches_status_and_updatedAt_only_witness :
  Task_findById (fst (toggleTaskStatus sample_db "alice" "a1" 500)) "a3"
  = Some read_book.
Proof.
  destruct (toggle_touches_status_and_updatedAt_only sample_db "alice" "a1"
              500) as (_ & H).
  rewrite H; [reflexivity | discriminate].
Defined.

(** ** More on stats *)

Lemma getTaskStats_value (M : StoreModel) (docs : Collection)
    (caller : ObjectId) :
  getTaskStats M docs caller
  = Sent 200 (mkStats
                (Z.of_nat (List.length (filter (owned_by caller) docs)))
                (count_status docs caller "pending")
                (count_status docs caller "completed")).
Proof.
  unfold getTaskStats.
  rewrite owner_filter_matcher, !count_of_aggregate. reflexivity.
Qed.

Lemma filter_twice {A} (f g : A -> bool) (l : list A) :
  filter f (filter g l) = filter (fun x => g x && f x) l.
Proof.
  induction l as [|x r IH]; simpl; [reflexivity|].
  destruct (g x); simpl; [|exact IH].
  destruct (f x); [f_equal|]; exact IH.
Qed.

Lemma filter_length_le {A} (f g : A -> bool) (l : list A) :
  (forall x, f x = true -> g x = true) ->
  (List.length (filter f l) <= List.length (filter g l))%nat.
Proof.
  intro H. induction l as [|x r IH]; simpl; [lia|].
  destruct (f x) eqn:E.
  - rewrite (H x E). simpl. lia.
  - destruct (g x); simpl; lia.
Qed.

Lemma three_way_split (l : list Task) :
  Z.of_nat (List.length l)
  = Z.of_nat (List.length
                (filter (fun t => strict_eq_str (status t) "pending") l))
    + Z.of_nat (List.length
                  (filter (fun t => strict_eq_str (status t) "completed") l))
    + Z.of_nat (List.length
                  (filter (fun t =>
                             negb (strict_eq_str (status t) "pending")
                             && negb (strict_eq_str (status t) "completed"))
                          l)).
Proof.
  induction l as [|t r IH]; [reflexivity|].
  cbn [filter List.length].
  destruct (strict_eq_str (status t) "pending") eqn:Ep;
    destruct (strict_eq_str (status t) "completed") eqn:Ec;
    cbn [negb andb List.length]; try lia.
  apply JsVal_eqb_eq in Ep, Ec. congruence.
Qed.

(** X13. In every stats response the total is the pending count plus
    the completed count plus the number of the caller's tasks with any
    other status; so pending + completed never exceeds the total, and
    equals it exactly when the caller has no task with another
    status. *)
Theorem stats_total_splits_three_ways (M : StoreModel) (docs : Collection)
    (caller : ObjectId) (code : Z) (s : Stats) :
  getTaskStats M docs caller = Sent code s ->
  total s = pending s + completed s + count_other_status docs caller
  /\ pending s + completed s <= total s
  /\ (total s = pending s + completed s
      <-> count_other_status docs caller = 0).
Proof.
  rewrite getTaskStats_value. intro H. injection H as _ <-.
  cbn [total pending completed].
  pose proof (three_way_split (filter (owned_by caller) docs)) as Hsplit.
  unfold count_status, count_other_status in *. lia.
Qed.

Lemma stats_total_splits_three_ways_witness :
  exists s,
    getTaskStats demo_store
      (mkTask "a9" "alice" (JStr "Old") JUndefined (JStr "archived")
              JUndefined JUndefined 10 10 :: sample_db) "alice"
    = Sent 200 s
    /\ total s = 4
    /\ pending s + completed s <= total s.
Proof.
  eexists. split; [reflexivity|]. split; [reflexivity|].
  destruct (stats_total_splits_three_ways demo_store
              (mkTask "a9" "alice" (JStr "Old") JUndefined (JStr "archived")
                      JUndefined JUndefined 10 10 :: sample_db)
              "alice" 200 _ eq_refl) as (_ & Hle & _).
  exact Hle.
Defined.

Lemma getTasks_sent_matcher (M : StoreModel) (docs : Collection)
    (caller : ObjectId) (q : Query) (code : Z) (page : TaskPage) :
  getTasks M docs caller q = Sent code page ->
  exists p, matcher M (buildFilter caller q) = Some p.
Proof.
  unfold getTasks, Task_countDocuments.
  destruct (matcher M (buildFilter caller q)) as [p|]; [eauto | discriminate].
Qed.

Lemma buildFilter_plain (caller : ObjectId) (q : Query) :
  q_search q = None -> q_priority q = None ->
  buildFilter caller q
  = mkFilter caller None
      (if truthy_param (q_status q) && param_neq (q_status q) "all"
       then q_status q else None) None.
Proof.
  unfold buildFilter. intros -> ->. simpl.
  destruct (truthy_param (q_status q) && param_neq (q_status q) "all");
    reflexivity.
Qed.

(** X14. The list and the stats agree: the total the list reports is
    never above the total of the stats; without search, status and
    priority filters they are equal, and with only the status filter
    pending (completed) the list total is the pending (completed) count
    of the stats. *)
Theorem list_total_agrees_with_stats (M : StoreModel) (docs : Collection)
    (caller : ObjectId) (q : Query) (code : Z) (page : TaskPage)
    (s : Stats) :
  getTasks M docs caller q = Sent code page ->
  getTaskStats M docs caller = Sent 200 s ->
  totalTasks page <= total s
  /\ (q_search q = None -> q_priority q = None ->
      (q_status q = None -> totalTasks page = total s)
      /\ (q_status q = Some "pending" -> totalTasks page = pending s)
      /\ (q_status q = Some "completed" -> totalTasks page = completed s)).
Proof.
  intros Hlist Hstats.
  rewrite getTaskStats_value in Hstats. injection Hstats as <-.
  cbn [total pending completed].
  destruct (getTasks_sent_matcher _ _ _ _ _ _ Hlist) as [p Hm].
  destruct (getTasks_sent _ _ _ _ _ _ _ Hm Hlist) as (_ & _ & Ht & _).
  rewrite Ht. split.
  - apply inj_le. apply filter_length_le. intros t Hp. unfold owned_by.
    apply oid_eqb_eq. rewrite (matcher_owner _ _ _ _ Hm Hp).
    apply buildFilter_user.
  - intros Hs Hp. rewrite (buildFilter_plain caller q Hs Hp) in Hm.
    unfold matcher in Hm. cbn [f_or] in Hm. injection Hm as <-.
    unfold count_status. rewrite !filter_twice.
    repeat split; intros ->; cbn [truthy_param param_neq String.eqb
                                   Ascii.eqb Bool.eqb negb andb];
      f_equal; f_equal; apply filter_ext; intro t;
      unfold base_match, owned_by, cond_matches, strict_eq_str;
      cbn [f_user f_status f_priority];
      now rewrite ?andb_true_r.
Qed.

Lemma list_total_agrees_with_stats_witness :
  exists page s,
    getTasks demo_store sample_db "alice" (only_status "pending")
      = Sent 200 page
    /\ getTaskStats demo_store sample_db "alice" = Sent 200 s
    /\ totalTasks page = pending s.
Proof.
  eexists. eexists. split; [reflexivity|]. split; [reflexivity|].
  destruct (list_total_agrees_with_stats demo_store sample_db "alice"
              (only_status "pending") 200 _ _ eq_refl eq_refl)
    as (_ & H).
  destruct (H eq_refl eq_refl) as (_ & Hp & _). apply Hp. reflexivity.
Defined.

Lemma count_status_flat (docs : Collection) (owner : ObjectId) (lit : string) :
  count_status docs owner lit
  = Z.of_nat (List.length
                (filter (fun t => owned_by owner t
                                  && strict_eq_str (status t) lit) docs)).
Proof. unfold count_status. now rewrite filter_twice. Qed.

Lemma toggled_status (task : Task) (now : Z) :
  status (toggled task now)
  = if strict_eq_str (status task) "pending"
    then JStr "completed" else JStr "pending".
Proof. reflexivity. Qed.

(** X15. Stats follow a toggle: when the owner toggles a pending task,
    the pending count goes down by one and the completed count up by
    one; for a completed task it is the other way round; a task with
    another status adds one to the pending count.  The total stays. *)
Theorem stats_follow_toggle (M : StoreModel) (docs : Collection)
    (caller id : ObjectId) (now : Z) (task : Task) (s : Stats) :
  Task_findById docs id = Some task ->
  user task = caller ->
  getTaskStats M docs caller = Sent 200 s ->
  (status task = JStr "pending" ->
   getTaskStats M (fst (toggleTaskStatus docs caller id now)) caller
   = Sent 200 (mkStats (total s) (pending s - 1) (completed s + 1)))
  /\ (status task = JStr "completed" ->
      getTaskStats M (fst (toggleTaskStatus docs caller id now)) caller
      = Sent 200 (mkStats (total s) (pending s + 1) (completed s - 1)))
  /\ (status task <> JStr "pending" -> status task <> JStr "completed" ->
      getTaskStats M (fst (toggleTaskStatus docs caller id now)) caller
      = Sent 200 (mkStats (total s) (pending s + 1) (completed s))).
Proof.
  intros Hfind Hown Hstats.
  destruct (toggleTaskStatus_owner docs caller id now task Hfind Hown)
    as [Hrun _].
  rewrite Hrun. cbn [fst].
  rewrite getTaskStats_value in Hstats. injection Hstats as <-.
  cbn [total pending completed].
  rewrite getTaskStats_value, !count_status_flat.
  assert (Eo : owned_by caller task = true) by now apply oid_eqb_eq.
  assert (Eo' : owned_by caller (toggled task now) = true) by exact Eo.
  pose proof (replace_by_id_count (owned_by caller) docs id task
                (toggled task now) Hfind) as Ht.
  pose proof (replace_by_id_count
                (fun t => owned_by caller t
                          && strict_eq_str (status t) "pending")
                docs id task (toggled task now) Hfind) as Hp.
  pose proof (replace_by_id_count
                (fun t => owned_by caller t
                          && strict_eq_str (status t) "completed")
                docs id task (toggled task now) Hfind) as Hc.
  cbv beta in Hp, Hc.
  rewrite Eo, Eo' in *. rewrite toggled_status in Hp, Hc.
  split; [|split].
  - intro E. rewrite E in Hp, Hc. cbn in Hp, Hc, Ht.
    f_equal. f_equal; lia.
  - intro E. rewrite E in Hp, Hc. cbn in Hp, Hc, Ht.
    f_equal. f_equal; lia.
  - intros Np Nc.
    destruct (strict_eq_str (status task) "pending") eqn:Ep.
    { apply JsVal_eqb_eq in Ep. contradiction. }
    destruct (strict_eq_str (status task) "completed") eqn:Ec.
    { apply JsVal_eqb_eq in Ec. contradiction. }
    cbn in Hp, Hc, Ht. f_equal. f_equal; lia.
Qed.

Lemma stats_follow_toggle_witness :
  getTaskStats demo_store sample_db "alice" = Sent 200 (mkStats 3 2 1)
  /\ getTaskStats demo_store
       (fst (toggleTaskStatus sample_db "alice" "a1" 500)) "alice"
     = Sent 200 (mkStats 3 (2 - 1) (1 + 1)).
Proof.
  split; [reflexivity|].
  destruct (stats_follow_toggle demo_store sample_db "alice" "a1" 500
              buy_milk (mkStats 3 2 1) eq_refl eq_refl eq_refl)
    as (Hp & _ & _).
  apply Hp. reflexivity.
Defined.

(** X16. Stats follow a create: after a successful create the caller's
    total and pending count are one higher and the completed count is
    the same; the stats of every other user are what they were. *)
Theorem stats_follow_create (M : StoreModel) (docs docs' : Collection)
    (caller : ObjectId) (body : JsObject) (now : Z) (newId : ObjectId)
    (code : Z) (task : Task) (s : Stats) :
  createTask M docs caller body now newId = (docs', Sent code task) ->
  getTaskStats M docs caller = Sent 200 s ->
  getTaskStats M docs' caller
    = Sent 200 (mkStats (total s + 1) (pending s + 1) (completed s))
  /\ (forall other, other <> caller ->
        getTaskStats M docs' other = getTaskStats M docs other).
Proof.
  intros Hrun Hstats.
  destruct (createTask_cases M docs caller body now newId)
    as [[_ (c & m & Hthrown)] | (t & Hok & Hdoc & _)].
  { rewrite Hrun in Hthrown. discriminate. }
  rewrite Hok in Hrun. injection Hrun as <- _ _.
  rewrite getTaskStats_value in Hstats. injection Hstats as <-.
  cbn [total pending completed].
  assert (Eo : owned_by caller t = true).
  { subst t. now apply oid_eqb_eq. }
  assert (Es : status t = JStr "pending") by now subst t.
  split.
  - rewrite getTaskStats_value, !count_status_flat, !filter_app.
    cbn [filter]. rewrite Eo, Es. cbn. rewrite !length_app. cbn.
    f_equal. f_equal; lia.
  - intros other Hne. rewrite !getTaskStats_value, !count_status_flat.
    rewrite !filter_app. cbn [filter].
    assert (En : owned_by other t = false).
    { unfold owned_by. destruct (oid_eqb (user t) other) eqn:E;
        [|reflexivity].
      apply oid_eqb_eq in E. subst t. simpl in E. congruence. }
    rewrite En. cbn. now rewrite !app_nil_r.
Qed.

Lemma stats_follow_create_witness :
  exists docs' task,
    createTask demo_store sample_db "bob" [("title", JStr "Feed cat")] 500 "b2"
      = (docs', Sent 201 task)
    /\ getTaskStats demo_store sample_db "bob" = Sent 200 (mkStats 1 1 0)
    /\ getTaskStats demo_store docs' "bob"
       = Sent 200 (mkStats (1 + 1) (1 + 1) 0).
Proof.
  eexists. eexists. split; [reflexivity|]. split; [reflexivity|].
  apply (stats_follow_create demo_store sample_db _ "bob"
           [("title", JStr "Feed cat")] 500 "b2" 201 _ (mkStats 1 1 0)
           eq_refl eq_refl).
Defined.

(** X17. Stats follow a delete: after the owner deletes a task the
    total is one lower, and so is the count of the status the task had,
    if it was pending or completed. *)
Theorem stats_follow_delete (M : StoreModel) (docs : Collection)
    (caller id : ObjectId) (task : Task) (s : Stats) :
  Task_findById docs id = Some task ->
  user task = caller ->
  getTaskStats M docs caller = Sent 200 s ->
  getTaskStats M (fst (deleteTask docs caller id)) caller
  = Sent 200
      (mkStats (total s - 1)
         (pending s - Z.b2z (strict_eq_str (status task) "pending"))
         (completed s - Z.b2z (strict_eq_str (status task) "completed"))).
Proof.
  intros Hfind Hown Hstats.
  assert (Hdel : fst (deleteTask docs caller id) = remove_by_id id docs).
  { unfold deleteTask, Task_findByIdAndDelete. rewrite Hfind.
    apply not_owner_false in Hown. now rewrite Hown. }
  rewrite Hdel.
  rewrite getTaskStats_value in Hstats. injection Hstats as <-.
  cbn [total pending completed].
  rewrite getTaskStats_value, !count_status_flat.
  assert (Eo : owned_by caller task = true) by now apply oid_eqb_eq.
  pose proof (remove_by_id_count (owned_by caller) docs id task Hfind) as Ht.
  pose proof (remove_by_id_count
                (fun t => owned_by caller t
                          && strict_eq_str (status t) "pending")
                docs id task Hfind) as Hp.
  pose proof (remove_by_id_count
                (fun t => owned_by caller t
                          && strict_eq_str (status t) "completed")
                docs id task Hfind) as Hc.
  cbv beta in Hp, Hc. rewrite Eo in *. cbn [andb Z.b2z] in Ht, Hp, Hc.
  f_equal. f_equal; lia.
Qed.

Lemma stats_follow_delete_witness :
  getTaskStats demo_store (fst (deleteTask sample_db "alice" "a2")) "alice"
  = Sent 200 (mkStats (3 - 1) (2 - 0) (1 - 1)).
Proof.
  apply (stats_follow_delete demo_store sample_db "alice" "a2" walk_dog
           (mkStats 3 2 1)); reflexivity.
Defined.

(** ** More on the list *)

Lemma Task_find_safe (M : StoreModel) (docs : Collection) (f : Filter)
    (s : SortSpec) (sk lim : Z) (p : Task -> bool) (found : list Task) :
  matcher M f = Some p ->
  0 <= sk -> sk <= two53 -> 0 < lim -> lim <= two53 ->
  Task_find M docs f s (Fin sk) (Fin lim) = Some found ->
  found = firstn (Z.to_nat lim)
            (skipn (Z.to_nat sk) (sort_tasks s (filter p docs))).
Proof.
  unfold Task_find. intros -> H1 H2 H3 H4.
  destruct (sort_key_ok M (sortField s)); [|discriminate].
  rewrite window_of_safe by assumption. now intros [= <-].
Qed.

(** X18. When the page and the limit in force are positive integers
    and the page, the limit and (page - 1) * limit are at most 2^53,
    the page the list sends holds [limit] tasks, or what is left of the
    matching tasks after the pages before it, or nothing:
    min(limit, totalTasks - (page - 1) * limit), not below zero.  Every
    page before the last one is full. *)
Theorem page_holds_limit_or_remainder (M : StoreModel) (docs : Collection)
    (caller : ObjectId) (q : Query) (code : Z) (page : TaskPage)
    (pg lim : Z) :
  effective_page q = Fin pg ->
  effective_limit q = Fin lim ->
  0 < lim -> lim <= two53 ->
  1 <= pg -> pg <= two53 ->
  (pg - 1) * lim <= two53 ->
  getTasks M docs caller q = Sent code page ->
  Z.of_nat (List.length (tasks page))
  = Z.max 0 (Z.min lim (totalTasks page - (pg - 1) * lim))
  /\ (forall tp, totalPages page = Fin tp -> pg < tp ->
                 Z.of_nat (List.length (tasks page)) = lim).
Proof.
  intros Hpg Hlim Hl0 Hl1 Hp0 Hp1 Hprod Hsent.
  destruct (getTasks_sent_matcher _ _ _ _ _ _ Hsent) as [p Hm].
  destruct (getTasks_sent _ _ _ _ _ _ _ Hm Hsent) as (_ & _ & Ht & Htp & Hf).
  rewrite Hpg, Hlim, skip_of_safe in Hf by assumption.
  apply (Task_find_safe _ _ _ _ _ _ _ _ Hm) in Hf; try assumption; [|nia].
  assert (Hlen : Z.of_nat (List.length (tasks page))
                 = Z.max 0 (Z.min lim (totalTasks page - (pg - 1) * lim))).
  { rewrite Hf, length_firstn, length_skipn, sort_tasks_length, Ht. nia. }
  split; [exact Hlen|].
  intros tp Hfin Hbefore. rewrite Hlen.
  rewrite Htp, Hlim, ceil_div_Fin in Hfin by lia. injection Hfin as <-.
  pose proof (ceil_div_is_ceiling (totalTasks page) lim Hl0) as [Hlo _].
  nia.
Qed.

Lemma page_holds_limit_or_remainder_witness :
  exists page,
    getTasks demo_store sample_db "alice" (page_of_two "2") = Sent 200 page
    /\ totalTasks page = 3
    /\ Z.of_nat (List.length (tasks page)) = 1.
Proof.
  eexists. split; [reflexivity|]. split; [reflexivity|].
  edestruct (page_holds_limit_or_remainder demo_store sample_db "alice"
               (page_of_two "2") 200) with (pg := 2) (lim := 2)
    as [Hlen _];
    [ reflexivity | reflexivity | reflexivity | vm_compute; discriminate
    | vm_compute; discriminate | vm_compute; discriminate
    | vm_compute; discriminate | reflexivity | exact Hlen ].
Defined.

(** ** Order of a page *)

Lemma value_compare_antisym (a b : JsVal) :
  value_compare a b = CompOpp (value_compare b a).
Proof.
  destruct a, b; simpl; try reflexivity.
  - now destruct b, b0.
  - apply Z.compare_antisym.
  - apply String.compare_antisym.
Qed.

Lemma task_compare_antisym (s : SortSpec) (a b : Task) :
  task_compare s a b = CompOpp (task_compare s b a).
Proof.
  unfold task_compare.
  rewrite (value_compare_antisym (field_of (sortField s) a)).
  destruct (sortOrder s =? 1); [reflexivity|].
  now rewrite CompOpp_involutive.
Qed.

Lemma in_order_after_Gt (s : SortSpec) (x y : Task) :
  task_compare s x y = Gt -> in_order s y x.
Proof.
  unfold in_order. rewrite (task_compare_antisym s y x). intros ->.
  discriminate.
Qed.

Lemma insert_sorted_HdRel (s : SortSpec) (x y : Task) (l : list Task) :
  in_order s y x -> HdRel (in_order s) y l ->
  HdRel (in_order s) y (insert_sorted s x l).
Proof.
  intros Hyx Hl. destruct l as [|z r]; simpl.
  - now constructor.
  - inversion Hl; subst.
    destruct (task_compare s x z); now constructor.
Qed.

Lemma insert_sorted_Sorted (s : SortSpec) (x : Task) (l : list Task) :
  Sorted (in_order s) l -> Sorted (in_order s) (insert_sorted s x l).
Proof.
  induction l as [|y r IH]; simpl; intro H.
  - repeat constructor.
  - apply Sorted_inv in H as [Hr Hy].
    destruct (task_compare s x y) eqn:E.
    + constructor; [now constructor|]. constructor. unfold in_order.
      rewrite E. discriminate.
    + constructor; [now constructor|]. constructor. unfold in_order.
      rewrite E. discriminate.
    + constructor; [now apply IH|].
      apply insert_sorted_HdRel; [now apply in_order_after_Gt | assumption].
Qed.

Lemma sort_tasks_Sorted (s : SortSpec) (l : list Task) :
  Sorted (in_order s) (sort_tasks s l).
Proof.
  induction l as [|x r IH]; simpl; [constructor|].
  now apply insert_sorted_Sorted.
Qed.

Lemma Sorted_skipn {A} (R : A -> A -> Prop) (n : nat) (l : list A) :
  Sorted R l -> Sorted R (skipn n l).
Proof.
  revert l. induction n as [|n IH]; intros l H; [exact H|].
  destruct l as [|x r]; [constructor|].
  apply IH. now apply Sorted_inv in H.
Qed.

Lemma Sorted_firstn {A} (R : A -> A -> Prop) (n : nat) (l : list A) :
  Sorted R l -> Sorted R (firstn n l).
Proof.
  revert l. induction n as [|n IH]; intros l H; [constructor|].
  destruct l as [|x r]; [constructor|]. simpl.
  apply Sorted_inv in H as [Hr Hx].
  constructor; [now apply IH|].
  destruct r as [|y r']; [destruct n; constructor|].
  inversion Hx; subst. destruct n; constructor. assumption.
Qed.

Lemma Sorted_weaken {A} (R R' : A -> A -> Prop) (l : list A) :
  (forall a b, R a b -> R' a b) -> Sorted R l -> Sorted R' l.
Proof.
  intros Himp H. induction H as [|x l Hl IH Hx]; constructor.
  - exact IH.
  - destruct Hx; constructor. now apply Himp.
Qed.

Lemma window_Sorted (M : StoreModel) (R : Task -> Task -> Prop)
    (skip limit : Num) (l found : list Task) :
  window M skip limit l = Some found -> Sorted R l -> Sorted R found.
Proof.
  intros Hw Hl.
  assert (Hu : option_map
                 (fun w : nat * option nat =>
                    match snd w with
                    | Some k => firstn k (skipn (fst w) l)
                    | None => skipn (fst w) l
                    end) (unusual_window M skip limit) = Some found ->
               Sorted R found).
  { destruct (unusual_window M skip limit) as [[n [k|]]|]; simpl;
      [| |discriminate]; intros [= <-].
    - now apply Sorted_firstn, Sorted_skipn.
    - now apply Sorted_skipn. }
  unfold window in Hw.
  destruct skip as [| | |sk]; try (exact (Hu Hw)).
  destruct limit as [| | |lim]; try (exact (Hu Hw)).
  destruct (safe_integer sk && safe_integer lim); [|exact (Hu Hw)].
  destruct (0 <=? sk); [|discriminate].
  injection Hw as <-. unfold take_limit.
  destruct (lim =? 0); [|apply Sorted_firstn]; now apply Sorted_skipn.
Qed.

Lemma getTasks_Sorted (M : StoreModel) (docs : Collection)
    (caller : ObjectId) (q : Query) (code : Z) (page : TaskPage) :
  getTasks M docs caller q = Sent code page ->
  Sorted (in_order (buildSort q)) (tasks page).
Proof.
  intro Hsent.
  destruct (getTasks_sent_matcher _ _ _ _ _ _ Hsent) as [p Hm].
  destruct (getTasks_sent _ _ _ _ _ _ _ Hm Hsent) as (_ & _ & _ & _ & Hf).
  unfold Task_find in Hf. rewrite Hm in Hf.
  destruct (sort_key_ok M (sortField (buildSort q))); [|discriminate].
  eapply window_Sorted; [exact Hf | apply sort_tasks_Sorted].
Qed.

Lemma in_order_number_field (a b : Z) (order : Z) :
  (if order =? 1 then (a ?= b) else CompOpp (a ?= b)) <> Gt ->
  if order =? 1 then a <= b else b <= a.
Proof.
  destruct (order =? 1); destruct (Z.compare_spec a b) as [E|E|E]; cbn;
    intro Hord; try lia; congruence.
Qed.

(** X21. The list sorts by what the query asks for.  With a [sortBy]
    parameter the page is in the order of that field, ascending when
    [sortOrder] is "asc" and descending for every other [sortOrder],
    an absent one included; without [sortBy] it is newest first.  For
    the time stamps this reads: sorted by createdAt ascending the
    creation times never decrease along the page, sorted by updatedAt
    descending, or newest first, the times never increase. *)
Theorem pages_are_sorted (M : StoreModel) (docs : Collection)
    (caller : ObjectId) (q : Query) (code : Z) (page : TaskPage) :
  getTasks M docs caller q = Sent code page ->
  (truthy_param (q_sortBy q) = false ->
   Sorted (fun a b => createdAt b <= createdAt a) (tasks page))
  /\ (forall f, q_sortBy q = Some f -> f <> "" ->
        q_sortOrder q = Some "asc" ->
        Sorted (in_order (mkSort f 1)) (tasks page))
  /\ (forall f, q_sortBy q = Some f -> f <> "" ->
        q_sortOrder q <> Some "asc" ->
        Sorted (in_order (mkSort f (-1))) (tasks page))
  /\ (q_sortBy q = Some "createdAt" -> q_sortOrder q = Some "asc" ->
      Sorted (fun a b => createdAt a <= createdAt b) (tasks page))
  /\ (q_sortBy q = Some "updatedAt" -> q_sortOrder q <> Some "asc" ->
      Sorted (fun a b => updatedAt b <= updatedAt a) (tasks page)).
Proof.
  intro Hsent. pose proof (getTasks_Sorted _ _ _ _ _ _ Hsent) as Hsorted.
  assert (Hasc : forall f, q_sortBy q = Some f -> f <> "" ->
                   q_sortOrder q = Some "asc" ->
                   buildSort q = mkSort f 1).
  { intros f Hf Hne Ho. unfold buildSort, param_eq. rewrite Hf, Ho. simpl.
    apply String.eqb_neq in Hne. now rewrite Hne. }
  assert (Hdesc : forall f, q_sortBy q = Some f -> f <> "" ->
                    q_sortOrder q <> Some "asc" ->
                    buildSort q = mkSort f (-1)).
  { intros f Hf Hne Ho. unfold buildSort, param_eq, param_neq.
    rewrite Hf. simpl. apply String.eqb_neq in Hne. rewrite Hne. simpl.
    destruct (q_sortOrder q) as [o|]; [|reflexivity].
    destruct (String.eqb_spec o "asc"); [subst; congruence | reflexivity]. }
  split; [|split; [|split; [|split]]].
  - intro Hdefault.
    assert (Hsort : buildSort q = mkSort "createdAt" (-1)).
    { unfold buildSort. destruct (q_sortBy q); [|reflexivity].
      now rewrite Hdefault. }
    rewrite Hsort in Hsorted. revert Hsorted. apply Sorted_weaken.
    intros a b. unfold in_order, task_compare. cbn.
    apply (in_order_number_field (createdAt a) (createdAt b) (-1)).
  - intros f Hf Hne Ho. now rewrite (Hasc f Hf Hne Ho) in Hsorted.
  - intros f Hf Hne Ho. now rewrite (Hdesc f Hf Hne Ho) in Hsorted.
  - intros Hf Ho.
    rewrite (Hasc "createdAt" Hf ltac:(discriminate) Ho) in Hsorted.
    revert Hsorted. apply Sorted_weaken.
    intros a b. unfold in_order, task_compare. cbn.
    apply (in_order_number_field (createdAt a) (createdAt b) 1).
  - intros Hf Ho.
    rewrite (Hdesc "updatedAt" Hf ltac:(discriminate) Ho) in Hsorted.
    revert Hsorted. apply Sorted_weaken.
    intros a b. unfold in_order, task_compare. cbn.
    apply (in_order_number_field (updatedAt a) (updatedAt b) (-1)).
Qed.

Lemma pages_are_sorted_witness :
  exists page1 page2,
    getTasks demo_store sample_db "alice" no_query = Sent 200 page1
    /\ map createdAt (tasks page1) = [400; 200; 100]
    /\ Sorted (fun a b => createdAt b <= createdAt a) (tasks page1)
    /\ getTasks demo_store sample_db "alice"
         (mkQuery None None None None None (Some "createdAt") (Some "asc"))
       = Sent 200 page2
    /\ map createdAt (tasks page2) = [100; 200; 400]
    /\ Sorted (fun a b => createdAt a <= createdAt b) (tasks page2).
Proof.
  eexists. eexists.
  split; [reflexivity|]. split; [reflexivity|].
  split.
  { edestruct (pages_are_sorted demo_store sample_db "alice" no_query 200)
      as [H _]; [reflexivity|].
    apply H. reflexivity. }
  split; [reflexivity|]. split; [reflexivity|].
  edestruct (pages_are_sorted demo_store sample_db "alice"
               (mkQuery None None None None None (Some "createdAt")
                        (Some "asc")) 200)
    as (_ & _ & _ & H & _); [reflexivity|].
  apply H; reflexivity.
Defined.

(** * The router *)

Lemma dispatch_root (decode : string -> option string) (m : Method) :
  dispatch decode taskRoutes m []
  = match m with
    | GET | HEAD => Routed H_getTasks []
    | POST => Routed H_createTask []
    | _ => Unrouted
    end.
Proof. destruct m; reflexivity. Qed.

Lemma dispatch_one_segment (decode : string -> option string) (m : Method)
    (seg : string) :
  dispatch decode taskRoutes m [seg]
  = match m with
    | GET | HEAD =>
        if (lowercase seg =? "stats")%string then Routed H_getTaskStats []
        else match decode seg with
             | Some id => Routed H_getTask [id]
             | None => BadParameter
             end
    | PUT =>
        match decode seg with
        | Some id => Routed H_updateTask [id]
        | None => BadParameter
        end
    | DELETE =>
        match decode seg with
        | Some id => Routed H_deleteTask [id]
        | None => BadParameter
        end
    | _ =>
        match decode seg with
        | Some id => Unrouted
        | None => BadParameter
        end
    end.
Proof.
  destruct m; cbv -[lowercase String.eqb];
    change (lowercase "stats") with "stats";
    destruct (lowercase seg =? "stats")%string;
    destruct (decode seg); reflexivity.
Qed.

Lemma dispatch_two_segments (decode : string -> option string) (m : Method)
    (seg act : string) :
  dispatch decode taskRoutes m [seg; act]
  = if (lowercase act =? "toggle")%string then
      match decode seg with
      | Some id =>
          match m with
          | PATCH => Routed H_toggleTaskStatus [id]
          | _ => Unrouted
          end
      | None => BadParameter
      end
    else Unrouted.
Proof.
  destruct m; cbv -[lowercase String.eqb];
    change (lowercase "toggle") with "toggle";
    destruct (lowercase seg =? lowercase "stats")%string;
    destruct (lowercase act =? "toggle")%string;
    destruct (decode seg); reflexivity.
Qed.

Lemma dispatch_longer (decode : string -> option string) (m : Method)
    (a b c : string) (r : list string) :
  dispatch decode taskRoutes m (a :: b :: c :: r) = Unrouted.
Proof.
  destruct m; cbv -[lowercase String.eqb];
    repeat match goal with
           | |- context [if ?c then _ else _] => destruct c
           end; reflexivity.
Qed.

(** X22. The literal route precedes the id route for reading only, and
    only for the literal spelling.  A GET (or HEAD) on one segment
    reaches the stats handler exactly when the segment spells "stats"
    in some letter case; on any other segment it reaches [getTask] with
    the decoded segment as id, so an escaped spelling of "stats" reads
    the id "stats".  A PUT or DELETE on one segment reaches [updateTask]
    or [deleteTask] with the decoded segment as id, also when the
    segment is "stats".  A segment that cannot be decoded ends the
    request with an error, for every method except a GET or HEAD on the
    literal. *)
Theorem stats_route_shadows_id_for_get_only
    (decode : string -> option string) (seg : string) :
  (lowercase seg = "stats" ->
   dispatch decode taskRoutes GET [seg] = Routed H_getTaskStats []
   /\ dispatch decode taskRoutes HEAD [seg] = Routed H_getTaskStats [])
  /\ (forall id, lowercase seg <> "stats" -> decode seg = Some id ->
        dispatch decode taskRoutes GET [seg] = Routed H_getTask [id]
        /\ dispatch decode taskRoutes HEAD [seg] = Routed H_getTask [id])
  /\ (forall id, decode seg = Some id ->
        dispatch decode taskRoutes PUT [seg] = Routed H_updateTask [id]
        /\ dispatch decode taskRoutes DELETE [seg] = Routed H_deleteTask [id]
        /\ dispatch decode taskRoutes POST [seg] = Unrouted
        /\ dispatch decode taskRoutes PATCH [seg] = Unrouted)
  /\ (forall m, decode seg = None ->
        lowercase seg <> "stats" \/ method_as_registered m <> GET ->
        dispatch decode taskRoutes m [seg] = BadParameter).
Proof.
  split; [|split; [|split]].
  - intro E. apply String.eqb_eq in E.
    rewrite !dispatch_one_segment, E. split; reflexivity.
  - intros id E Hd. apply String.eqb_neq in E.
    rewrite !dispatch_one_segment, E, Hd. split; reflexivity.
  - intros id Hd. rewrite !dispatch_one_segment, Hd. repeat split.
  - intros m Hd Hor. rewrite dispatch_one_segment, Hd.
    destruct m; try reflexivity;
      (destruct Hor as [E | E];
       [apply String.eqb_neq in E; now rewrite E | now elim E]).
Qed.

Lemma stats_route_shadows_id_for_get_only_witness :
  dispatch percent_decode taskRoutes GET ["Stats"] = Routed H_getTaskStats []
  /\ dispatch percent_decode taskRoutes GET ["st%61ts"]
     = Routed H_getTask ["stats"]
  /\ dispatch percent_decode taskRoutes DELETE ["stats"]
     = Routed H_deleteTask ["stats"]
  /\ dispatch percent_decode taskRoutes PUT ["%zz"] = BadParameter.
Proof.
  destruct (stats_route_shadows_id_for_get_only percent_decode "Stats")
    as (Hs & _).
  destruct (stats_route_shadows_id_for_get_only percent_decode "st%61ts")
    as (_ & Hid & _).
  destruct (stats_route_shadows_id_for_get_only percent_decode "stats")
    as (_ & _ & Hdel & _).
  destruct (stats_route_shadows_id_for_get_only percent_decode "%zz")
    as (_ & _ & _ & Hbad).
  split; [apply Hs; reflexivity|].
  split; [apply (Hid "stats"); [discriminate | reflexivity]|].
  split; [apply (Hdel "stats"); reflexivity|].
  apply Hbad; [reflexivity | left; discriminate].
Defined.

(** Going back from a dispatch result to the request that gave it. *)
Ltac route_inv H :=
  match type of H with
  | dispatch _ taskRoutes ?m ?path = _ =>
      destruct path as [|? [|? [|? ?]]];
      [ rewrite dispatch_root in H
      | rewrite dispatch_one_segment in H
      | rewrite dispatch_two_segments in H
      | rewrite dispatch_longer in H ];
      destruct m; try discriminate H;
      repeat match type of H with
             | context [if ?c then _ else _] => destruct c eqn:?
             | context [match ?d with Some _ => _ | None => _ end] =>
                 destruct d eqn:?
             end;
      try discriminate H;
      injection H as <-;
      repeat match goal with
             | E : (_ =? _)%string = true |- _ => apply String.eqb_eq in E
             end
  end.

(** The same on the path alone, for a method that is already known. *)
Ltac route_inv_path H :=
  match type of H with
  | dispatch _ taskRoutes _ ?path = _ =>
      destruct path as [|? [|? [|? ?]]];
      [ rewrite dispatch_root in H
      | rewrite dispatch_one_segment in H
      | rewrite dispatch_two_segments in H
      | rewrite dispatch_longer in H ];
      repeat match type of H with
             | context [if ?c then _ else _] => destruct c
             | context [match ?d with Some _ => _ | None => _ end] =>
                 destruct d
             end;
      discriminate H
  end.

(** X23. Each mutating handler is reached by its own route only, with
    the decoded id: [createTask] by POST on the collection,
    [updateTask] by PUT and [deleteTask] by DELETE on one segment that
    decodes to the id, and [toggleTaskStatus] by PATCH on a segment that
    decodes to the id followed by "toggle" in any letter case. *)
Theorem mutating_handlers_have_one_route (decode : string -> option string)
    (m : Method) (path params : list string) :
  (dispatch decode taskRoutes m path = Routed H_createTask params
   <-> m = POST /\ path = [] /\ params = [])
  /\ (dispatch decode taskRoutes m path = Routed H_updateTask params
      <-> m = PUT
          /\ exists seg id, path = [seg] /\ decode seg = Some id
                            /\ params = [id])
  /\ (dispatch decode taskRoutes m path = Routed H_deleteTask params
      <-> m = DELETE
          /\ exists seg id, path = [seg] /\ decode seg = Some id
                            /\ params = [id])
  /\ (dispatch decode taskRoutes m path = Routed H_toggleTaskStatus params
      <-> m = PATCH
          /\ exists seg act id,
               path = [seg; act] /\ lowercase act = "toggle"
               /\ decode seg = Some id /\ params = [id]).
Proof.
  split; [|split; [|split]]; split.
  - intro H. route_inv H. auto.
  - intros (-> & -> & ->). reflexivity.
  - intro H. route_inv H. eauto 6.
  - intros (-> & seg & id & -> & Hd & ->).
    now rewrite dispatch_one_segment, Hd.
  - intro H. route_inv H. eauto 6.
  - intros (-> & seg & id & -> & Hd & ->).
    now rewrite dispatch_one_segment, Hd.
  - intro H. route_inv H. eauto 8.
  - intros (-> & seg & act & id & -> & Hact & Hd & ->).
    now rewrite dispatch_two_segments, Hact, Hd.
Qed.

Lemma mutating_handlers_have_one_route_witness :
  dispatch percent_decode taskRoutes PATCH ["a%31"; "Toggle"]
  = Routed H_toggleTaskStatus ["a1"].
Proof.
  destruct (mutating_handlers_have_one_route percent_decode PATCH
              ["a%31"; "Toggle"] ["a1"]) as (_ & _ & _ & H).
  apply H. split; [reflexivity|].
  exists "a%31", "Toggle", "a1". repeat split.
Defined.

Lemma taskRouter_store (decode : string -> option string)
    (protect : option string -> option ObjectId)
    (M : StoreModel) (docs : Collection) (req : Request) (now : Z)
    (newId : ObjectId) :
  fst (taskRouter decode protect M docs req now newId)
  = match protect (req_credentials req) with
    | None => docs
    | Some caller =>
        match dispatch decode taskRoutes (req_method req) (req_path req) with
        | Routed H_createTask _ =>
            fst (createTask M docs caller (req_body req) now newId)
        | Routed H_updateTask params =>
            fst (updateTask M docs caller (param_id params) (req_body req)
                            now)
        | Routed H_deleteTask params =>
            fst (deleteTask docs caller (param_id params))
        | Routed H_toggleTaskStatus params =>
            fst (toggleTaskStatus docs caller (param_id params) now)
        | _ => docs
        end
    end.
Proof.
  unfold taskRouter.
  destruct (protect (req_credentials req)) as [caller|]; [|reflexivity].
  destruct (dispatch decode taskRoutes (req_method req) (req_path req))
    as [h params| |]; try reflexivity.
  destruct h; try reflexivity.
  - now destruct (createTask M docs caller (req_body req) now newId).
  - now destruct (updateTask M docs caller (param_id params) (req_body req)
                             now).
  - now destruct (deleteTask docs caller (param_id params)).
  - now destruct (toggleTaskStatus docs caller (param_id params) now).
Qed.

(** X24. What a request to the router can change.  Without resolved
    credentials no handler runs, whatever the method and the path, and
    the collection stays as it is.  A GET or HEAD request never changes
    the collection.  And whatever an authenticated caller sends, the
    tasks of everyone else are stored afterwards exactly as before. *)
Theorem router_changes_only_the_callers_tasks
    (decode : string -> option string)
    (protect : option string -> option ObjectId) (M : StoreModel)
    (docs : Collection) (req : Request) (now : Z) (newId : ObjectId) :
  (protect (req_credentials req) = None ->
   taskRouter decode protect M docs req now newId = (docs, NotAuthenticated))
  /\ (method_as_registered (req_method req) = GET ->
      fst (taskRouter decode protect M docs req now newId) = docs)
  /\ (forall caller,
        protect (req_credentials req) = Some caller ->
        tasks_of_others caller
          (fst (taskRouter decode protect M docs req now newId))
        = tasks_of_others caller docs).
Proof.
  split; [|split].
  - intro Hnone. unfold taskRouter. now rewrite Hnone.
  - intro Hget. rewrite taskRouter_store.
    destruct (protect (req_credentials req)) as [caller|]; [|reflexivity].
    destruct (dispatch decode taskRoutes (req_method req) (req_path req))
      as [h params| |] eqn:Hd; try reflexivity.
    destruct h; try reflexivity; exfalso;
      destruct (req_method req); try discriminate Hget;
      route_inv_path Hd.
  - intros caller Hsome. rewrite taskRouter_store, Hsome.
    destruct (dispatch decode taskRoutes (req_method req) (req_path req))
      as [h params| |]; try reflexivity.
    destruct h; try reflexivity.
    + apply createTask_keeps_others.
    + apply updateTask_keeps_others.
    + apply deleteTask_keeps_others.
    + apply toggleTaskStatus_keeps_others.
Qed.

Lemma router_changes_only_the_callers_tasks_witness :
  taskRouter percent_decode demo_protect demo_store sample_db
    (mkRequest DELETE ["a1"] (Some "stale-token") no_query []) 500 "x1"
  = (sample_db, NotAuthenticated)
  /\ fst (taskRouter percent_decode demo_protect demo_store sample_db
            (mkRequest GET ["a1"] (Some "token-alice") no_query []) 500 "x1")
     = sample_db
  /\ tasks_of_others "bob"
       (fst (taskRouter percent_decode demo_protect demo_store sample_db
               (mkRequest DELETE ["a1"] (Some "token-bob") no_query [])
               500 "x1"))
     = tasks_of_others "bob" sample_db.
Proof.
  destruct (router_changes_only_the_callers_tasks percent_decode demo_protect
              demo_store sample_db
              (mkRequest DELETE ["a1"] (Some "stale-token") no_query [])
              500 "x1") as (H1 & _).
  destruct (router_changes_only_the_callers_tasks percent_decode demo_protect
              demo_store sample_db
              (mkRequest GET ["a1"] (Some "token-alice") no_query [])
              500 "x1") as (_ & H2 & _).
  destruct (router_changes_only_the_callers_tasks percent_decode demo_protect
              demo_store sample_db
              (mkRequest DELETE ["a1"] (Some "token-bob") no_query [])
              500 "x1") as (_ & _ & H3).
  split; [apply H1; reflexivity|].
  split; [apply H2; reflexivity | apply H3; reflexivity].
Defined.
